(** * PlotAgent (todsop03.py): the query pipeline and its execution gate

    A shallow embedding of [PlotAgent] and of what it calls.  Methods are
    computations in a state, error and trace monad: the state holds the
    receiver [self] and the surrounding world, an error is a Python
    exception, and the trace records what the method did that an observer
    can see (lines printed, collaborators called, snippets run).

    [PlotAgent] lives in todsop03.py.  [CodeExecutor] (todsop_utils) and
    [DataHandler] (todsop04) are imported by it; the language-model agent,
    pandas, matplotlib and the interpreter's [exec] are third-party. *)

From Stdlib Require Import ZArith String Ascii List.
From Stdlib Require Import Floats.SpecFloat.
From stdpp Require Import gmap strings list.

Local Open Scope string_scope.
Local Open Scope list_scope.

(** ** Python strings *)

Module PyStr.

(** The line feed, as in the [\n] of a Python literal. *)
Definition nl : string := String "010"%char EmptyString.

(** [c.lower()] on one character: ASCII capitals move to their small
    letter, every other byte stays. *)
Definition lower_ascii (c : ascii) : ascii :=
  let n := nat_of_ascii c in
  if (65 <=? n)%nat && (n <=? 90)%nat then ascii_of_nat (n + 32) else c.

(** [s.lower()].  A string is its UTF-8 bytes, and only ASCII letters are
    folded.  For the one use made of it, the test for "sale price", that
    agrees with Python: no character outside ASCII lowers to text in which
    the ASCII needle could newly occur. *)
Fixpoint lower (s : string) : string :=
  match s with
  | EmptyString => EmptyString
  | String c s' => String (lower_ascii c) (lower s')
  end.

(** [needle in hay] for two strings: [needle] occurs at some offset. *)
Fixpoint str_in (needle hay : string) : bool :=
  String.prefix needle hay ||
  match hay with
  | EmptyString => false
  | String _ hay' => str_in needle hay'
  end.

(** [sep.join(parts)]. *)
Definition join (sep : string) (parts : list string) : string :=
  String.concat sep parts.

(** [x in xs] for a list of strings. *)
Definition mem (x : string) (xs : list string) : bool :=
  bool_decide (x ∈ xs).

(** Truthiness of a string: [not s] holds for the empty string only. *)
Definition is_empty (s : string) : bool :=
  match s with EmptyString => true | _ => false end.

End PyStr.

(** ** Exceptions *)

(** The classes this program meets.  [except Exception] catches every
    class but the three that derive from [BaseException] directly. *)
Inductive exn_class : Type :=
| ValueError
| OtherException (name : string)
| KeyboardInterrupt
| SystemExit
| GeneratorExit.

Record exn : Type := Exn { exn_cls : exn_class; exn_str : string }.

(** [isinstance(e, Exception)]. *)
Definition is_Exception (e : exn) : bool :=
  match exn_cls e with
  | ValueError | OtherException _ => true
  | KeyboardInterrupt | SystemExit | GeneratorExit => false
  end.

Inductive result (A : Type) : Type :=
| Ok (a : A)
| Raise (e : exn).
Arguments Ok {A} a.
Arguments Raise {A} e.

(** ** The monad of methods *)

Section Monad.
Context {State Event : Type}.

(** What a computation leaves behind: its result, the state after it and
    the events it emitted, oldest first. *)
Record Out (A : Type) : Type :=
  MkOut { res : result A; st : State; evs : list Event }.
Arguments MkOut {A} res st evs.
Arguments res {A} o.
Arguments st {A} o.
Arguments evs {A} o.

Definition M (A : Type) : Type := State -> Out A.

Definition ret {A} (a : A) : M A := fun s => MkOut (Ok a) s [].

Definition bind {A B} (m : M A) (k : A -> M B) : M B :=
  fun s =>
    let o := m s in
    match res o with
    | Ok a => let o' := k a (st o) in MkOut (res o') (st o') (evs o ++ evs o')
    | Raise e => MkOut (Raise e) (st o) (evs o)
    end.

Definition raise {A} (e : exn) : M A := fun s => MkOut (Raise e) s [].

Definition emit (e : Event) : M unit := fun s => MkOut (Ok tt) s [e].

Definition get : M State := fun s => MkOut (Ok s) s [].

(** Several events at once. *)
Definition lift_trace (t : list Event) : M unit := fun s => MkOut (Ok tt) s t.

(** [try: body / except Exception as e: handler(e)].  An exception outside
    the [Exception] hierarchy is not caught; neither is one the handler
    raises. *)
Definition try_except_Exception {A} (body : M A) (handler : exn -> M A) : M A :=
  fun s =>
    let o := body s in
    match res o with
    | Ok a => o
    | Raise e =>
        if is_Exception e
        then let o' := handler e (st o) in MkOut (res o') (st o') (evs o ++ evs o')
        else o
    end.

End Monad.

Arguments Out : clear implicits.
Arguments M : clear implicits.
Arguments MkOut {State Event A} res st evs.
Arguments res {State Event A} o.
Arguments st {State Event A} o.
Arguments evs {State Event A} o.

Declare Scope py_scope.
Delimit Scope py_scope with py.
Notation "x <- m ;; k" := (bind m (fun x => k))
  (at level 100, m at next level, right associativity) : py_scope.
Notation "m ;;; k" := (bind m (fun _ => k))
  (at level 100, right associativity) : py_scope.
Local Open Scope py_scope.

(** ** Values the program passes around *)

(** The keyword arguments of the call [ChatOpenAI(...)] in
    [_initialize_llm]. *)
Record LLM : Type := ChatOpenAI {
  base_url : string;
  model : string;
  api_key : option string;
  temperature : spec_float
}.

Inductive AgentType : Type := OPENAI_FUNCTIONS.

(** The keyword arguments of the call [create_pandas_dataframe_agent(...)]
    in [_create_agent]. *)
Record Agent (ChatModel DataFrame : Type) : Type := create_pandas_dataframe_agent {
  agent_llm : ChatModel;
  agent_df : DataFrame;
  agent_type : AgentType;
  suffix : string;
  verbose : bool;
  allow_dangerous_code : bool
}.
Arguments create_pandas_dataframe_agent {ChatModel DataFrame}.
Arguments agent_llm {ChatModel DataFrame} a.
Arguments agent_df {ChatModel DataFrame} a.
Arguments agent_type {ChatModel DataFrame} a.
Arguments suffix {ChatModel DataFrame} a.
Arguments verbose {ChatModel DataFrame} a.
Arguments allow_dangerous_code {ChatModel DataFrame} a.

(** The objects a namespace binds: a frame, or an imported module. *)
Inductive pyobj (DataFrame : Type) : Type :=
| ODataFrame (d : DataFrame)
| OModule (name : string).
Arguments ODataFrame {DataFrame} d.
Arguments OModule {DataFrame} name.

(** A dict used as a namespace.  [ns_id] is the identity of the dict
    object: a dict display builds a new object each time it is evaluated. *)
Record Namespace (DataFrame : Type) : Type := MkNamespace {
  ns_id : nat;
  ns_bind : gmap string (pyobj DataFrame)
}.
Arguments MkNamespace {DataFrame} ns_id ns_bind.
Arguments ns_id {DataFrame} n.
Arguments ns_bind {DataFrame} n.

(** What [float] is applied to in [_initialize_llm]: the string of an
    environment variable, or the integer default. *)
Inductive pyval : Type :=
| PStr (s : string)
| PInt (z : Z).

(** ** The collaborators *)

(** What one call of [CodeExecutor.execute_safe_code] leaves behind: its
    result, the world outside the agent after it, and the snippets it handed
    to the interpreter, each with the namespace it ran in. *)
Record ExecOut (Ext DataFrame : Type) : Type := MkExecOut {
  exec_res : result unit;
  exec_ext : Ext;
  exec_ran : list (string * Namespace DataFrame)
}.
Arguments MkExecOut {Ext DataFrame} exec_res exec_ext exec_ran.
Arguments exec_res {Ext DataFrame} e.
Arguments exec_ext {Ext DataFrame} e.
Arguments exec_ran {Ext DataFrame} e.

(** Everything todsop03.py reaches outside itself, apart from
    [CodeExecutor].  [Ext] is the state of that outside: the contents of the
    dataset, the model service, the figures drawn so far, the standard
    output.  A [DataFrame] is a reference to a frame; its columns are read
    from [Ext], so code that runs outside the agent may change them.  Every
    call into a library may raise. *)
Class Externals : Type := {
  Ext : Type;
  DataFrame : Type;
  DataHandler : Type;
  ChatModel : Type;
  AgentExecutor : Type;
  (** [df.columns] *)
  df_columns : Ext -> DataFrame -> list string;
  (** [DataHandler()] *)
  DataHandler_new : Ext -> result DataHandler * Ext;
  (** [data_handler.get_data()] *)
  get_data : DataHandler -> Ext -> result DataFrame * Ext;
  (** [ChatOpenAI(...)] on these keyword arguments: the constructor sees the process environment
      too (it looks for a key there when [api_key] is [None]) *)
  new_ChatOpenAI : LLM -> gmap string string -> Ext -> result ChatModel * Ext;
  (** [create_pandas_dataframe_agent(...)] on these keyword arguments *)
  new_agent : Agent ChatModel DataFrame -> Ext -> result AgentExecutor * Ext;
  (** [agent.invoke(d)]: the response dict, or an exception *)
  agent_invoke : AgentExecutor -> gmap string string -> Ext ->
                 result (gmap string string) * Ext;
  (** the Python sources the agent's own tool executes during that
      [invoke]: the agent is built with [allow_dangerous_code=True] *)
  agent_tool_runs : AgentExecutor -> gmap string string -> Ext -> list string;
  (** [float(s)] on a string; [None] where Python raises [ValueError] *)
  float_of_str : string -> option spec_float;
  (** [repr(s)] of a string *)
  py_repr : string -> string;
  (** [print(line)]: writing to the standard output may raise (a line the
      stream cannot encode, a closed stream) *)
  py_print : string -> Ext -> result unit * Ext
}.

(** The two static methods of [CodeExecutor] that todsop03.py calls.  The
    extractor is a function of the text; the executor reads the allow-list
    and the namespace it is passed and acts on the outside world only. *)
Class CodeExecutorAPI `{Externals} : Type := {
  extract_code_snippet : string -> string;
  execute_safe_code :
    string -> list string -> Namespace DataFrame -> Ext -> ExecOut Ext DataFrame
}.

(** ** State and events *)

Section PlotAgent.
Context {X : Externals} {CE : CodeExecutorAPI}.

(** The process around the agent object: the environment variables (as
    [load_dotenv()] left them), the class attribute
    [PlotAgent.ALLOWED_KEYWORDS], the outside world, and the number of
    dicts allocated so far. *)
Record World : Type := MkWorld {
  environ : gmap string string;
  class_ALLOWED_KEYWORDS : list string;
  ext : Ext;
  allocs : nat
}.

(** An instance: the four attributes [__init__] sets. *)
Record PlotAgent : Type := MkPlotAgent {
  llm : ChatModel;
  data_handler : DataHandler;
  df : DataFrame;
  data_analysis_agent : AgentExecutor
}.

(** The state a method runs in: its receiver and the world. *)
Record Sys : Type := MkSys { self : PlotAgent; world : World }.

(** What a method is seen to do.  [EPrint line] is the call [print(line)],
    whether or not the write went through; [EToolExec code] is the agent's
    own tool executing [code] during [invoke]; [EExec code ns] is the
    executor handing [code] to the interpreter. *)
Inductive event : Type :=
| EPrint (line : string)
| EValidateColumns (frame : DataFrame) (required_columns : list string)
| EInvoke (agent : AgentExecutor) (input : gmap string string)
| EToolExec (code : string)
| EExtract (text : string)
| EExecuteSafeCode (code_snippet : string) (allowed : list string)
                   (ns : Namespace DataFrame)
| EExec (code : string) (ns : Namespace DataFrame).

(** The world with another outside. *)
Definition set_ext (w : World) (x : Ext) : World :=
  MkWorld (environ w) (class_ALLOWED_KEYWORDS w) x (allocs w).

(** The state of a method with another outside. *)
Definition with_ext (s : Sys) (x : Ext) : Sys :=
  MkSys (self s) (set_ext (world s) x).

(** A computation on the world, run from inside a method. *)
Definition in_world {A} (m : M World event A) : M Sys event A :=
  fun s =>
    let o := m (world s) in
    MkOut (res o) (MkSys (self s) (st o)) (evs o).

(** A call that acts on the outside world only. *)
Definition call_ext {A} (f : Ext -> result A * Ext) : M World event A :=
  fun w =>
    let '(r, x) := f (ext w) in
    MkOut r (MkWorld (environ w) (class_ALLOWED_KEYWORDS w) x (allocs w)) [].

(** [print(line)] *)
Definition print (line : string) : M Sys event unit :=
  emit (EPrint line) ;;;
  in_world (call_ext (py_print line)).

(** A dict display: a new dict object with the given items. *)
Definition new_dict (items : gmap string (pyobj DataFrame))
  : M World event (Namespace DataFrame) :=
  fun w =>
    MkOut (Ok (MkNamespace (allocs w) items))
          (MkWorld (environ w) (class_ALLOWED_KEYWORDS w) (ext w) (S (allocs w)))
          [].

(** ** The class body *)

(** [ALLOWED_KEYWORDS = [...]] (lines 18-21). *)
Definition ALLOWED_KEYWORDS : list string :=
  ["df"; "iloc"; "to_dict"; "mean"; "mode"; "std";
   "max"; "min"; "color"; "plot"; "unique"; "groupby"].

(** The world once the class statement has run. *)
Definition class_PlotAgent (env : gmap string string) (x : Ext) : World :=
  MkWorld env ALLOWED_KEYWORDS x 0.

(** [os.getenv(key, default)] with a string default. *)
Definition getenv (env : gmap string string) (key default : string) : string :=
  match env !! key with
  | Some s => s
  | None => default
  end.

(** [os.getenv(key, 0)]: the variable's string, or the integer. *)
Definition getenv_int (env : gmap string string) (key : string) (default : Z)
  : pyval :=
  match env !! key with
  | Some s => PStr s
  | None => PInt default
  end.

(** [float(v)]: an integer converts exactly or by rounding to binary64; a
    string goes through the interpreter's parser, which names the string
    by its [repr] when it rejects it. *)
Definition py_float (v : pyval) : result spec_float :=
  match v with
  | PInt z => Ok (binary_normalize 53 1024 z 0 false)
  | PStr s =>
      match float_of_str s with
      | Some f => Ok f
      | None =>
          Raise (Exn ValueError ("could not convert string to float: " +:+ py_repr s))
      end
  end.

Definition lift_result {State A} (r : result A) : M State event A :=
  fun s => MkOut r s [].

(** The keyword arguments [_initialize_llm] passes (lines 33-36), given
    the temperature. *)
Definition llm_kwargs (env : gmap string string) (t : spec_float) : LLM :=
  ChatOpenAI
    (getenv env "PANDAS_BASE_URL" "https://api.opentyphoon.ai/v1")
    (getenv env "PANDAS_MODEL" "typhoon-v1.5x-70b-instruct")
    (env !! "PLOT_API_KEY")
    t.

(** [_initialize_llm] (lines 30-37). *)
Definition _initialize_llm : M World event ChatModel :=
  w <- get ;;
  let env := environ w in
  t <- lift_result (py_float (getenv_int env "PANDAS_TEMPERATURE" 0)) ;;
  call_ext (new_ChatOpenAI (llm_kwargs env t) env).

(** The [suffix] of [_create_agent] (lines 41-46), from [self.df.columns]. *)
Definition agent_suffix (columns : list string) : string :=
  "You are working with a DataFrame. The exact column names are: "
  +:+ PyStr.join ", " (map (fun col => "'" +:+ col +:+ "'") columns)
  +:+ ". Use df['column name'] syntax for column names with spaces. Generate Matplotlib plots in Python where applicable.".

(** The keyword arguments [_create_agent] passes (lines 47-54). *)
Definition agent_kwargs (self_llm : ChatModel) (self_df : DataFrame)
  (columns : list string) : Agent ChatModel DataFrame :=
  create_pandas_dataframe_agent self_llm self_df OPENAI_FUNCTIONS
    (agent_suffix columns) true true.

(** [_create_agent] (lines 39-54), reading [self.llm] and [self.df]. *)
Definition _create_agent (self_llm : ChatModel) (self_df : DataFrame)
  : M World event AgentExecutor :=
  w <- get ;;
  call_ext (new_agent (agent_kwargs self_llm self_df (df_columns (ext w) self_df))).

(** [__init__] (lines 23-28): the four attributes, in the order they are
    assigned; the instance exists once all four are. *)
Definition __init__ : M World event PlotAgent :=
  l <- _initialize_llm ;;
  h <- call_ext DataHandler_new ;;
  d <- call_ext (get_data h) ;;
  a <- _create_agent l d ;;
  ret (MkPlotAgent l h d a).

(** ** Methods *)

(** [_validate_columns] (lines 56-67). *)
Definition _validate_columns (required_columns : list string) : M Sys event unit :=
  s <- get ;;
  emit (EValidateColumns (df (self s)) required_columns) ;;;
  let columns := df_columns (ext (world s)) (df (self s)) in
  let missing_columns :=
    List.filter (fun col => negb (PyStr.mem col columns)) required_columns in
  match missing_columns with
  | [] => ret tt
  | _ :: _ =>
      raise (Exn ValueError
               ("Missing required columns: " +:+ PyStr.join ", " missing_columns))
  end.

(** The call [CodeExecutor.execute_safe_code(code, allowed, ns)], seen from
    the caller: the call itself, then each snippet the executor ran. *)
Definition call_execute_safe_code (code : string) (allowed : list string)
  (ns : Namespace DataFrame) : M World event unit :=
  fun w =>
    let o := execute_safe_code code allowed ns (ext w) in
    MkOut (exec_res o)
          (MkWorld (environ w) (class_ALLOWED_KEYWORDS w) (exec_ext o) (allocs w))
          (EExecuteSafeCode code allowed ns
             :: map (fun cn => EExec (fst cn) (snd cn)) (exec_ran o)).

(** [response.get('output', '')] *)
Definition response_output (response : gmap string string) : string :=
  default "" (response !! "output").

(** The dict display of line 84. *)
Definition namespace_items (d : DataFrame) : gmap string (pyobj DataFrame) :=
  {[ "df" := ODataFrame d;
     "pd" := OModule "pandas";
     "plt" := OModule "matplotlib.pyplot" ]}.

(** [_extract_and_execute_code] (lines 69-85). *)
Definition _extract_and_execute_code (response : gmap string string)
  : M Sys event unit :=
  emit (EExtract (response_output response)) ;;;
  let code_snippet := extract_code_snippet (response_output response) in
  if PyStr.is_empty code_snippet
  then raise (Exn ValueError "No valid code snippet generated by the agent.")
  else
    print ("Generated code:" +:+ PyStr.nl +:+ code_snippet) ;;;
    s <- get ;;
    ns <- in_world (new_dict (namespace_items (df (self s)))) ;;
    in_world (call_execute_safe_code code_snippet
                (class_ALLOWED_KEYWORDS (world s)) ns).

(** [self.data_analysis_agent.invoke({"input": input_user})]: the call,
    what the agent's tool executes while it runs, and its outcome. *)
Definition invoke_agent (input_user : string) : M Sys event (gmap string string) :=
  s <- get ;;
  let agent := data_analysis_agent (self s) in
  let d : gmap string string := {[ "input" := input_user ]} in
  emit (EInvoke agent d) ;;;
  lift_trace (map EToolExec (agent_tool_runs agent d (ext (world s)))) ;;;
  in_world (call_ext (agent_invoke agent d)).

(** The suite of the [try] in [process_query] (lines 95-101). *)
Definition process_query_body (input_user : string) : M Sys event unit :=
  (if PyStr.str_in "sale price" (PyStr.lower input_user)
   then _validate_columns ["sale price"; "country"]
   else ret tt) ;;;
  response <- invoke_agent input_user ;;
  _extract_and_execute_code response.

(** The line the handler prints (line 104). *)
Definition error_line (e : exn) : string :=
  "An error occurred while processing the query: " +:+ exn_str e.

(** [process_query] (lines 87-104). *)
Definition process_query (input_user : string) : M Sys event unit :=
  try_except_Exception
    (process_query_body input_user)
    (fun e => print (error_line e)).

(** [run] (lines 106-114). *)
Definition run (input_user : string) : M Sys event unit :=
  print ("Processing query: " +:+ input_user) ;;;
  process_query input_user.

(** A caller that sends one query after another to the same agent: what
    "between queries" and "subsequent queries" range over. *)
Fixpoint run_all (queries : list string) : M Sys event unit :=
  match queries with
  | [] => ret tt
  | q :: queries' => run q ;;; run_all queries'
  end.

(** [agent = PlotAgent()] followed by the queries, from the world the class
    statement leaves; the script's [__main__] block is the case of one
    query. *)
Definition session (queries : list string) : M World event unit :=
  fun w =>
    let o := __init__ w in
    match res o with
    | Ok agent =>
        let o' := run_all queries (MkSys agent (st o)) in
        MkOut (res o') (world (st o')) (evs o ++ evs o')
    | Raise e => MkOut (Raise e) (st o) (evs o)
    end.

Definition main : M World event unit :=
  session ["plot bar chart of sale price by country with unique color"].

(** ** Reading a trace *)

Definition is_EInvoke (e : event) : bool :=
  match e with EInvoke _ _ => true | _ => false end.

Definition is_EExecuteSafeCode (e : event) : bool :=
  match e with EExecuteSafeCode _ _ _ => true | _ => false end.

Definition is_EExec (e : event) : bool :=
  match e with EExec _ _ => true | _ => false end.


Definition is_EValidateColumns (e : event) : bool :=
  match e with EValidateColumns _ _ => true | _ => false end.

(** How many events of a kind a trace holds. *)
Definition count (p : event -> bool) (t : list event) : nat :=
  length (List.filter p t).

(** The namespaces handed to the executor, in call order. *)
Fixpoint call_namespaces (t : list event) : list (Namespace DataFrame) :=
  match t with
  | [] => []
  | EExecuteSafeCode _ _ ns :: t' => ns :: call_namespaces t'
  | _ :: t' => call_namespaces t'
  end.

(** The namespaces snippets were run in by the interpreter, in order. *)
Fixpoint run_namespaces (t : list event) : list (Namespace DataFrame) :=
  match t with
  | [] => []
  | EExec _ ns :: t' => ns :: run_namespaces t'
  | _ :: t' => run_namespaces t'
  end.

(** The allow-lists handed to the executor, in call order. *)
Fixpoint call_allow_lists (t : list event) : list (list string) :=
  match t with
  | [] => []
  | EExecuteSafeCode _ allowed _ :: t' => allowed :: call_allow_lists t'
  | _ :: t' => call_allow_lists t'
  end.

(** The frame a column validation checks, or an execution namespace
    binds to [df]. *)
Definition event_frame (e : event) : option DataFrame :=
  match e with
  | EValidateColumns frame _ => Some frame
  | EExecuteSafeCode _ _ ns =>
      match ns_bind ns !! "df" with
      | Some (ODataFrame d) => Some d
      | _ => None
      end
  | _ => None
  end.

End PlotAgent.

(** ** CodeExecutor, from its specification

    todsop_utils.py is not part of the sources at hand.  The definitions
    of this module follow the specification's sections 4.1 to 4.3. *)

Module CodeExecutor.

Definition is_space (c : ascii) : bool :=
  let n := nat_of_ascii c in
  (n =? 32)%nat || ((9 <=? n)%nat && (n <=? 13)%nat).

Definition is_digit (c : ascii) : bool :=
  let n := nat_of_ascii c in (48 <=? n)%nat && (n <=? 57)%nat.

Definition is_letter (c : ascii) : bool :=
  let n := nat_of_ascii c in
  ((65 <=? n)%nat && (n <=? 90)%nat) || ((97 <=? n)%nat && (n <=? 122)%nat).

(** The characters of an identifier-like unit. *)
Definition is_ident_char (c : ascii) : bool :=
  is_letter c || is_digit c || (nat_of_ascii c =? 95)%nat.

Fixpoint lstrip (s : string) : string :=
  match s with
  | String c s' => if is_space c then lstrip s' else s
  | EmptyString => EmptyString
  end.

Fixpoint rstrip (s : string) : string :=
  match s with
  | String c s' =>
      let r := rstrip s' in
      if is_space c && PyStr.is_empty r then EmptyString else String c r
  | EmptyString => EmptyString
  end.

(** [s.strip()] *)
Definition strip (s : string) : string := rstrip (lstrip s).

Fixpoint drop_chars (n : nat) (s : string) : string :=
  match n, s with
  | S n', String _ s' => drop_chars n' s'
  | _, _ => s
  end.

(** The text after the first occurrence of [pat], if there is one. *)
Fixpoint after_first (pat s : string) : option string :=
  if String.prefix pat s then Some (drop_chars (String.length pat) s)
  else match s with
       | EmptyString => None
       | String _ s' => after_first pat s'
       end.

(** The text before the first occurrence of [pat], if there is one. *)
Fixpoint before_first (pat s : string) : option string :=
  if String.prefix pat s then Some EmptyString
  else match s with
       | EmptyString => None
       | String c s' => String c <$> before_first pat s'
       end.

Fixpoint all_chars (p : ascii -> bool) (s : string) : bool :=
  match s with
  | EmptyString => true
  | String c s' => p c && all_chars p s'
  end.

Fixpoint any_char (p : ascii -> bool) (s : string) : bool :=
  match s with
  | EmptyString => false
  | String c s' => p c || any_char p s'
  end.

(** [s.split('\n')] *)
Fixpoint split_lines (s : string) : list string :=
  match s with
  | EmptyString => [EmptyString]
  | String c s' =>
      if Ascii.eqb c "010"%char then EmptyString :: split_lines s'
      else match split_lines s' with
           | l :: ls => String c l :: ls
           | [] => [String c EmptyString]
           end
  end.

Definition fence : string := "```".

(** The inside of a fence without its language tag: when the text up to
    the first line break is a bare word (or empty), it is the tag. *)
Definition drop_language_tag (body : string) : string :=
  match before_first PyStr.nl body, after_first PyStr.nl body with
  | Some tag, Some rest =>
      if all_chars (fun c => is_letter c || is_digit c) tag then rest else body
  | _, _ => body
  end.

(** The first fenced region: from the first fence to the next one. *)
Definition fenced_block (text : string) : option string :=
  rest ← after_first fence text;
  body ← before_first fence rest;
  Some (drop_language_tag body).

(** A line "recognizable as code": it has assignment or call syntax. *)
Definition looks_like_code (line : string) : bool :=
  any_char (fun c => Ascii.eqb c "="%char || Ascii.eqb c "("%char) line.

(** Modelled from the spec: the Snippet Extractor of section 4.1
    ([CodeExecutor.extract_code_snippet], todsop_utils.py).  The first
    fenced region if there is one; otherwise the lines that look like code,
    joined; either way trimmed.  The empty string is the "empty" sentinel. *)
Definition extract_code_snippet (text : string) : string :=
  match fenced_block text with
  | Some block => strip block
  | None =>
      strip (PyStr.join PyStr.nl (List.filter looks_like_code (split_lines text)))
  end.

(** *** The validator *)

Inductive token : Type :=
| TWord (w : string)   (* a maximal run of identifier characters *)
| TLit                 (* a string literal *)
| TOp (c : ascii)      (* any other ASCII character that is not blank *)
| TBad.                (* text that cannot be told apart: see [lex] *)

(** Where the lexer stands: in code, in a word, in a comment, behind one
    or two opening quotes, in a one-line literal, or in a triple-quoted
    one having just seen [closing] quotes in a row. *)
Inductive lex_mode : Type :=
| InCode
| InWord (w : string)
| InComment
| Quote1 (quote : ascii)
| Quote2 (quote : ascii)
| InString (quote : ascii) (escaped : bool)
| InTriple (quote : ascii) (closing : nat) (escaped : bool).

Definition is_quote (c : ascii) : bool :=
  Ascii.eqb c "'"%char || (nat_of_ascii c =? 34)%nat.

Definition is_newline (c : ascii) : bool := (nat_of_ascii c =? 10)%nat.

Definition is_ascii (c : ascii) : bool := (nat_of_ascii c <? 128)%nat.

(** One character read outside a word, a comment and a literal.  A byte
    outside ASCII could be part of an identifier the interpreter folds to
    an ASCII one: it is refused. *)
Definition step_code (c : ascii) : list token * lex_mode :=
  if is_ident_char c then ([], InWord (String c EmptyString))
  else if is_quote c then ([], Quote1 c)
  else if Ascii.eqb c "#"%char then ([], InComment)
  else if is_space c then ([], InCode)
  else if is_ascii c then ([TOp c], InCode)
  else ([TBad], InCode).

(** What is pending when the text ends: a literal left open is refused. *)
Definition flush (m : lex_mode) : list token :=
  match m with
  | InCode | InComment => []
  | InWord w => [TWord w]
  | Quote2 _ => [TLit]
  | Quote1 _ | InString _ _ | InTriple _ _ _ => [TBad]
  end.

(** Splits a snippet "on non-alphanumeric boundaries" into units, as the
    interpreter would read it: a comment runs to the end of its line; a
    literal in single quotes ends on its line (one that does not is
    refused); a triple-quoted literal ends at the next three quotes; a word
    glued to a literal (a string prefix) is refused. *)
Fixpoint lex (m : lex_mode) (s : string) : list token :=
  match s with
  | EmptyString => flush m
  | String c s' =>
      match m with
      | InCode =>
          let '(ts, m') := step_code c in ts ++ lex m' s'
      | InWord w =>
          if is_ident_char c then lex (InWord (w +:+ String c EmptyString)) s'
          else if is_quote c then TWord w :: TBad :: lex (Quote1 c) s'
          else let '(ts, m') := step_code c in TWord w :: ts ++ lex m' s'
      | InComment =>
          if is_newline c then lex InCode s' else lex InComment s'
      | Quote1 q =>
          if Ascii.eqb c q then lex (Quote2 q) s'
          else if Ascii.eqb c "\"%char then lex (InString q true) s'
          else if is_newline c then TBad :: lex InCode s'
          else lex (InString q false) s'
      | Quote2 q =>
          if Ascii.eqb c q then lex (InTriple q 0 false) s'
          else let '(ts, m') := step_code c in TLit :: ts ++ lex m' s'
      | InString q escaped =>
          if escaped then lex (InString q false) s'
          else if Ascii.eqb c "\"%char then lex (InString q true) s'
          else if Ascii.eqb c q then TLit :: lex InCode s'
          else if is_newline c then TBad :: lex InCode s'
          else lex m s'
      | InTriple q closing escaped =>
          if escaped then lex (InTriple q 0 false) s'
          else if Ascii.eqb c "\"%char then lex (InTriple q 0 true) s'
          else if Ascii.eqb c q
               then match closing with
                    | S (S _) => TLit :: lex InCode s'
                    | _ => lex (InTriple q (S closing) false) s'
                    end
          else lex (InTriple q 0 false) s'
      end
  end.

(** The "control keywords intrinsic to the language of execution". *)
Definition python_keywords : list string :=
  ["False"; "None"; "True"; "and"; "as"; "assert"; "async"; "await";
   "break"; "class"; "continue"; "def"; "del"; "elif"; "else"; "except";
   "finally"; "for"; "from"; "global"; "if"; "import"; "in"; "is";
   "lambda"; "nonlocal"; "not"; "or"; "pass"; "raise"; "return"; "try";
   "while"; "with"; "yield"].

(** A word is a numeric literal when it starts with a digit. *)
Definition is_numeric (w : string) : bool :=
  match w with
  | String c _ => is_digit c
  | EmptyString => false
  end.

(** A word directly followed by a single [=] labels what follows (a keyword
    argument, an assignment target): it is bound, not accessed. *)
Definition is_label (rest : list token) : bool :=
  match rest with
  | TOp c1 :: TOp c2 :: _ => Ascii.eqb c1 "="%char && negb (Ascii.eqb c2 "="%char)
  | TOp c1 :: _ => Ascii.eqb c1 "="%char
  | _ => false
  end.

(** The words that need permission: every identifier-like unit but the
    "syntactic elements" of rule (b), which are numeric literals, keywords
    and labels.  A word after a dot is an attribute access and is never a
    label.  Operators and string literals carry no word. *)
Fixpoint permission_tokens (after_dot : bool) (ts : list token) : list string :=
  match ts with
  | [] => []
  | TWord w :: rest =>
      if is_numeric w || PyStr.mem w python_keywords
         || (negb after_dot && is_label rest)
      then permission_tokens false rest
      else w :: permission_tokens false rest
  | TOp c :: rest => permission_tokens (Ascii.eqb c "."%char) rest
  | _ :: rest => permission_tokens false rest
  end.

(** The snippet has no text the lexer refuses. *)
Definition well_lexed (ts : list token) : bool :=
  forallb (fun t => match t with TBad => false | _ => true end) ts.

(** The offending tokens: exact, case-sensitive membership in the list. *)
Definition disallowed_tokens (code : string) (allowed : list string) : list string :=
  List.filter (fun w => negb (PyStr.mem w allowed))
              (permission_tokens false (lex InCode code)).

(** Modelled from the spec: the Keyword Validator of section 4.2 (inside
    [CodeExecutor.execute_safe_code], todsop_utils.py).  Pass or fail; the
    empty snippet fails, and so does one the lexer refuses. *)
Definition validate (code : string) (allowed : list string) : bool :=
  negb (PyStr.is_empty code) &&
  well_lexed (lex InCode code) &&
  match disallowed_tokens code allowed with [] => true | _ :: _ => false end.

Section Executor.
Context `{X : Externals}.

(** The interpreter's [exec] on a snippet with the given namespace as its
    only scope: what it raises, and what it does to the outside world. *)
Variable py_exec : string -> Namespace DataFrame -> Ext -> result unit * Ext.

(** Modelled from the spec: the gate and the Sandboxed Executor of
    sections 4.2, 4.3 and 7 ([CodeExecutor.execute_safe_code],
    todsop_utils.py).  A rejected snippet is reported with its offending
    tokens and nothing runs; an accepted one is handed to the interpreter
    once, with the namespace it was given, and what the interpreter raises
    is surfaced to the caller. *)
Definition execute_safe_code (code : string) (allowed : list string)
  (ns : Namespace DataFrame) (x : Ext) : ExecOut Ext DataFrame :=
  if validate code allowed
  then let '(r, x') := py_exec code ns x in MkExecOut r x' [(code, ns)]
  else MkExecOut
         (Raise (Exn ValueError
                   ("Disallowed tokens in generated code: "
                    +:+ PyStr.join ", " (disallowed_tokens code allowed))))
         x [].

(** [CodeExecutor] as the specification describes it. *)
Definition spec_executor : CodeExecutorAPI :=
  Build_CodeExecutorAPI X extract_code_snippet execute_safe_code.

End Executor.

End CodeExecutor.

(** ** A small concrete world

    One dataset, whose column names are all there is to the outside world;
    constructors that succeed; an agent whose answer is a function of the
    query; a standard output that may refuse a line; an interpreter that
    runs every snippet without effect.  Used to run the definitions. *)

Module Demo.

(** 0.5 as a binary64 value. *)
Definition half : spec_float := S754_finite false 4503599627370496 (-53).

(** What varies from one run to the next: what the agent answers, what
    its tool executes on the way, and which lines the standard output
    refuses. *)
Record setup : Type := MkSetup {
  reply : string -> result (gmap string string);
  tool_runs : list string;
  print_fails : string -> option exn
}.

Definition externals (d : setup) : Externals :=
  {| Ext := list string;
     DataFrame := unit;
     DataHandler := unit;
     ChatModel := LLM;
     AgentExecutor := Agent LLM unit;
     df_columns := fun x _ => x;
     DataHandler_new := fun x => (Ok tt, x);
     get_data := fun _ x => (Ok tt, x);
     new_ChatOpenAI := fun kwargs _ x => (Ok kwargs, x);
     new_agent := fun kwargs x => (Ok kwargs, x);
     agent_invoke := fun _ input x => (reply d (default "" (input !! "input")), x);
     agent_tool_runs := fun _ _ _ => tool_runs d;
     float_of_str := fun s => if String.eqb s "0.5" then Some half else None;
     py_repr := fun s => "'" +:+ s +:+ "'";
     py_print := fun line x =>
                   match print_fails d line with
                   | Some e => (Raise e, x)
                   | None => (Ok tt, x)
                   end |}.

(** An agent that answers every query with the same text. *)
Definition says (text : string) : setup :=
  MkSetup (fun q => Ok {[ "input" := q; "output" := text ]}) [] (fun _ => None).

(** An agent call cut short by Ctrl-C. *)
Definition interrupted : setup :=
  MkSetup (fun _ => Raise (Exn KeyboardInterrupt "")) [] (fun _ => None).


(** A standard output that takes ASCII only. *)
Definition ascii_only (line : string) : option exn :=
  if CodeExecutor.all_chars CodeExecutor.is_ascii line then None
  else Some (Exn (OtherException "UnicodeEncodeError")
                 "'ascii' codec can't encode character").

(** An agent that answers with [text], under such an output. *)
Definition says_to_ascii (text : string) : setup :=
  MkSetup (fun q => Ok {[ "input" := q; "output" := text ]}) [] ascii_only.

(** The word "cafe" with an acute accent on its last letter, in UTF-8: two
    bytes outside ASCII. *)
Definition cafe : string :=
  "caf" +:+ String "195"%char (String "169"%char EmptyString).

(** An agent whose call fails with [text], under such an output. *)
Definition fails_with (text : string) : setup :=
  MkSetup (fun _ => Raise (Exn ValueError text)) [] ascii_only.

Definition py_exec_ok (d : setup)
  : string -> Namespace (@DataFrame (externals d)) -> @Ext (externals d) ->
    result unit * @Ext (externals d) :=
  fun _ _ x => (Ok tt, x).

(** The specified [CodeExecutor] over that interpreter. *)
Definition executor (d : setup) : @CodeExecutorAPI (externals d) :=
  CodeExecutor.spec_executor (py_exec_ok d).

(** The world after the class statement, with no variable set. *)
Definition world0 (d : setup) (columns : list string) : @World (externals d) :=
  @class_PlotAgent (externals d) ∅ columns.

(** The agent [__init__] builds there, with the world it leaves. *)
Definition agent0 (d : setup) (columns : list string) : @PlotAgent (externals d) :=
  let l := ChatOpenAI "https://api.opentyphoon.ai/v1" "typhoon-v1.5x-70b-instruct"
                      None (S754_zero false) in
  @MkPlotAgent (externals d) l tt tt
    (create_pandas_dataframe_agent l tt OPENAI_FUNCTIONS (agent_suffix columns)
       true true).

Definition sys0 (d : setup) (columns : list string) : @Sys (externals d) :=
  @MkSys (externals d) (agent0 d columns) (world0 d columns).

Definition scenario1 : string :=
  "df['sale price'].groupby(df['country']).mean().plot(kind='bar')".

Definition scenario2 : string := "import os; os.system('rm -rf /')".

Definition scenario3 : string := "Here is your chart idea but no code.".

(** A snippet with a comment that opens a quote, followed by a line the
    allow-list forbids. *)
Definition quote_in_comment : string :=
  "df  #'" +:+ PyStr.nl +:+ "import os; os.system('x')".

(** A plot whose title is not ASCII. *)
Definition accented_plot : string := "df.plot(color='" +:+ cafe +:+ "')".

End Demo.

(** ** What the properties are stated with *)

Section Notions.
Context {X : Externals} {CE : CodeExecutorAPI}.

(** The columns of [required] that the agent's frame lacks, in order:
    the list [_validate_columns] builds. *)
Definition missing_columns (s : Sys) (required : list string) : list string :=
  List.filter
    (fun col => negb (PyStr.mem col (df_columns (ext (world s)) (df (self s)))))
    required.

(** The namespace [_extract_and_execute_code] builds when run in [s]. *)
Definition exec_namespace (s : Sys) : Namespace DataFrame :=
  MkNamespace (allocs (world s)) (namespace_items (df (self s))).

(** The last step of [_extract_and_execute_code] (lines 81-85): build the
    namespace and call the executor. *)
Definition execute_step (code_snippet : string) : M Sys event unit :=
  (s <- get ;;
   ns <- in_world (new_dict (namespace_items (df (self s)))) ;;
   in_world (call_execute_safe_code code_snippet
               (class_ALLOWED_KEYWORDS (world s)) ns))%py.

(** What a method may change: the outside world, and the count of
    allocated dicts, which only grows. *)
Record frame (s s' : Sys) : Prop := MkFrame {
  frame_self : self s' = self s;
  frame_environ : environ (world s') = environ (world s);
  frame_class : class_ALLOWED_KEYWORDS (world s') = class_ALLOWED_KEYWORDS (world s);
  frame_allocs : allocs (world s) <= allocs (world s')
}.

(** An event is in order for agent [a] and allow-list [allowed]: it works
    on [a]'s frame, calls [a]'s language-model agent, and hands the
    executor [allowed] and the three bindings. *)
Definition inv_event (a : PlotAgent) (allowed : list string) (e : event) : Prop :=
  match e with
  | EValidateColumns frame _ => frame = df a
  | EInvoke agent _ => agent = data_analysis_agent a
  | EExecuteSafeCode _ allowed' ns =>
      allowed' = allowed /\ ns_bind ns = namespace_items (df a)
  | _ => True
  end.

(** A trace is gated by [allowed]: a call of the executor carries
    [allowed]; when the snippet passes the validator the call is followed by
    one run of that snippet in that namespace, and when it fails by none; no
    run stands anywhere else. *)
Fixpoint gated (allowed : list string) (t : list event) : Prop :=
  match t with
  | [] => True
  | EExecuteSafeCode c allowed' ns :: t' =>
      allowed' = allowed /\
      if CodeExecutor.validate c allowed
      then match t' with
           | EExec c' ns' :: t'' => c' = c /\ ns' = ns /\ gated allowed t''
           | _ => False
           end
      else gated allowed t'
  | EExec _ _ :: _ => False
  | _ :: t' => gated allowed t'
  end.

(** A Hoare triple over traces: [P] is kept by [m], and what [m] emits
    from a state in [P] satisfies [Q]. *)
Definition hoare {A} (P : Sys -> Prop) (m : M Sys event A)
  (Q : list event -> Prop) : Prop :=
  forall s, P s -> P (st (m s)) /\ Q (evs (m s)).

(** Trace properties that sequencing keeps. *)
Class Sequential (Q : list event -> Prop) : Prop := {
  sequential_nil : Q [];
  sequential_app : forall t1 t2, Q t1 -> Q t2 -> Q (t1 ++ t2)%list
}.

(** The dicts of a trace are the ones allocated while it was emitted. *)
Definition allocates {A} (s : Sys) (o : Out Sys event A) : Prop :=
  allocs (world s) <= allocs (world (st o)) /\
  map ns_id (call_namespaces (evs o)) =
  seq (allocs (world s)) (allocs (world (st o)) - allocs (world s)).

(** A state predicate that depends on the framed parts only. *)
Definition framed (P : Sys -> Prop) : Prop :=
  forall s s', frame s s' -> P s -> P s'.

(** The state facts the events of agent [a] under [allowed] rest on. *)
Definition agent_is (a : PlotAgent) (allowed : list string) (s : Sys) : Prop :=
  self s = a /\ class_ALLOWED_KEYWORDS (world s) = allowed.

(** A computation on the world that emits nothing and leaves all but the
    outside world as it was. *)
Definition quiet {A} (m : M World event A) : Prop :=
  forall w,
    environ (st (m w)) = environ w /\
    class_ALLOWED_KEYWORDS (st (m w)) = class_ALLOWED_KEYWORDS w /\
    allocs (st (m w)) = allocs w /\
    evs (m w) = [].

(** A kind of event that no extraction, print or run is of. *)
Definition call_kind (p : event -> bool) : Prop :=
  (forall text, p (EExtract text) = false) /\
  (forall line, p (EPrint line) = false) /\
  (forall c n, p (EExec c n) = false) /\
  (forall c, p (EToolExec c) = false).

(** A trace property that each step of a query meets, from a state in
    [P]. *)
Record pieces (P : Sys -> Prop) (Q : list event -> Prop) : Prop := MkPieces {
  piece_print : forall line, Q [EPrint line];
  piece_validate :
    forall s required, P s -> Q [EValidateColumns (df (self s)) required];
  piece_invoke :
    forall s d runs, P s ->
      Q (EInvoke (data_analysis_agent (self s)) d :: map EToolExec runs);
  piece_extract : forall text, Q [EExtract text];
  piece_execute :
    forall s code o, P s ->
      o = execute_safe_code code (class_ALLOWED_KEYWORDS (world s))
            (exec_namespace s) (ext (world s)) ->
      Q (EExecuteSafeCode code (class_ALLOWED_KEYWORDS (world s)) (exec_namespace s)
         :: map (fun cn => EExec (fst cn) (snd cn)) (exec_ran o))
}.

End Notions.

(** ** Laws of the monad *)

Section MonadLaws.
Context {State Event : Type}.
Implicit Types s : State.

Lemma out_eta {A} (o : Out State Event A) : MkOut (res o) (st o) (evs o) = o.
Proof. destruct o; reflexivity. Qed.

Lemma bind_ret {A B} (a : A) (k : A -> M State Event B) s :
  bind (ret a) k s = k a s.
Proof. unfold bind, ret; cbn. apply out_eta. Qed.

Lemma bind_get {B} (k : State -> M State Event B) s :
  bind get k s = k s s.
Proof. unfold bind, get; cbn. apply out_eta. Qed.

Lemma bind_raise {A B} (e : exn) (k : A -> M State Event B) s :
  bind (raise e) k s = MkOut (Raise e) s [].
Proof. reflexivity. Qed.

Lemma bind_emit {B} (e : Event) (k : unit -> M State Event B) s :
  bind (emit e) k s = MkOut (res (k tt s)) (st (k tt s)) (e :: evs (k tt s)).
Proof. reflexivity. Qed.

Lemma bind_lift_trace {B} (t : list Event) (k : unit -> M State Event B) s :
  bind (lift_trace t) k s = MkOut (res (k tt s)) (st (k tt s)) (t ++ evs (k tt s)).
Proof. reflexivity. Qed.

(** [bind] unfolded once. *)
Lemma bind_unfold {A B} (m : M State Event A) (k : A -> M State Event B) s :
  bind m k s =
  match res (m s) with
  | Ok a => MkOut (res (k a (st (m s)))) (st (k a (st (m s))))
                  (evs (m s) ++ evs (k a (st (m s))))
  | Raise e => MkOut (Raise e) (st (m s)) (evs (m s))
  end.
Proof. reflexivity. Qed.

(** [bind] by cases on what its first part returns. *)
Lemma bind_cases {A B} (m : M State Event A) (k : A -> M State Event B) s :
  (exists a, res (m s) = Ok a /\
     res (bind m k s) = res (k a (st (m s))) /\
     st (bind m k s) = st (k a (st (m s))) /\
     evs (bind m k s) = (evs (m s) ++ evs (k a (st (m s))))%list) \/
  (exists e, res (m s) = Raise e /\
     res (bind m k s) = Raise e /\
     st (bind m k s) = st (m s) /\
     evs (bind m k s) = evs (m s)).
Proof.
  unfold bind. destruct (res (m s)) as [a|e] eqn:Hr.
  - left. exists a. cbn. auto.
  - right. exists e. cbn. auto.
Qed.

(** [try_except_Exception] by cases on what its body returns. *)
Lemma try_cases {A} (body : M State Event A) (handler : exn -> M State Event A) s :
  let b := body s in
  let o := try_except_Exception body handler s in
  match res b with
  | Ok _ => o = b
  | Raise e =>
      if is_Exception e
      then res o = res (handler e (st b)) /\
           st o = st (handler e (st b)) /\
           evs o = (evs b ++ evs (handler e (st b)))%list
      else o = b
  end.
Proof.
  cbv zeta. unfold try_except_Exception.
  destruct (res (body s)) as [a|e]; [reflexivity|].
  destruct (is_Exception e); cbn; auto.
Qed.

End MonadLaws.

(** ** The methods, step by step *)

Section Theory.
Context {X : Externals} {CE : CodeExecutorAPI}.
Implicit Types (s : Sys) (q : string) (response : gmap string string).

(** *** Hoare rules *)

Lemma hoare_bind {A B} P (m : M Sys event A) (k : A -> M Sys event B) Q
  `{!Sequential Q} :
  hoare P m Q -> (forall a, hoare P (k a) Q) -> hoare P (bind m k) Q.
Proof.
  intros Hm Hk s HP. destruct (Hm s HP) as [HP1 HQ1].
  destruct (bind_cases m k s) as [(a & _ & _ & -> & ->)|(e & _ & _ & -> & ->)].
  - destruct (Hk a _ HP1) as [HP2 HQ2]. split; [assumption|].
    apply sequential_app; assumption.
  - split; assumption.
Qed.

Lemma hoare_try {A} P (body : M Sys event A) handler Q `{!Sequential Q} :
  hoare P body Q -> (forall e, hoare P (handler e) Q) ->
  hoare P (try_except_Exception body handler) Q.
Proof.
  intros Hb Hh s HP. destruct (Hb s HP) as [HP1 HQ1].
  pose proof (try_cases body handler s) as Hc. cbv zeta in Hc.
  destruct (res (body s)) as [a|e].
  - rewrite Hc. split; assumption.
  - destruct (is_Exception e).
    + destruct Hc as (_ & -> & ->). destruct (Hh e _ HP1) as [HP2 HQ2].
      split; [assumption|]. apply sequential_app; assumption.
    + rewrite Hc. split; assumption.
Qed.

Lemma hoare_ret {A} P (a : A) Q `{!Sequential Q} : hoare P (ret a) Q.
Proof. intros s HP. split; [assumption|apply sequential_nil]. Qed.

Lemma hoare_raise {A} P (e : exn) Q `{!Sequential Q} : hoare P (@raise _ _ A e) Q.
Proof. intros s HP. split; [assumption|apply sequential_nil]. Qed.

Lemma hoare_emit P (e : event) (Q : list event -> Prop) :
  Q [e] -> hoare P (emit e) Q.
Proof. intros HQ s HP. split; assumption. Qed.

(** *** Each method in closed form *)

Lemma call_ext_eq {A} (f : Ext -> result A * Ext) (w : World) :
  call_ext f w = MkOut (fst (f (ext w))) (set_ext w (snd (f (ext w)))) [].
Proof. unfold call_ext, set_ext. destruct (f (ext w)); reflexivity. Qed.

Lemma print_eq line s :
  print line s =
  MkOut (fst (py_print line (ext (world s))))
        (with_ext s (snd (py_print line (ext (world s)))))
        [EPrint line].
Proof.
  unfold print. rewrite bind_emit. unfold in_world. rewrite call_ext_eq.
  reflexivity.
Qed.

Lemma validate_columns_eq required s :
  _validate_columns required s =
  MkOut (match missing_columns s required with
         | [] => Ok tt
         | _ :: _ =>
             Raise (Exn ValueError
                      ("Missing required columns: "
                       +:+ PyStr.join ", " (missing_columns s required)))
         end)
        s [EValidateColumns (df (self s)) required].
Proof.
  unfold _validate_columns, missing_columns.
  rewrite bind_get, bind_emit.
  destruct (List.filter _ required); reflexivity.
Qed.

Lemma invoke_agent_eq q s :
  invoke_agent q s =
  let agent := data_analysis_agent (self s) in
  let r := agent_invoke agent {[ "input" := q ]} (ext (world s)) in
  MkOut (fst r) (with_ext s (snd r))
        (EInvoke agent {[ "input" := q ]}
         :: map EToolExec (agent_tool_runs agent {[ "input" := q ]} (ext (world s)))).
Proof.
  unfold invoke_agent. rewrite bind_get. cbv zeta.
  rewrite bind_emit, bind_lift_trace. unfold in_world. rewrite call_ext_eq.
  cbn [res st evs]. rewrite app_nil_r. reflexivity.
Qed.

Lemma exec_namespace_with_ext s (x : Ext) :
  exec_namespace (with_ext s x) = exec_namespace s.
Proof. reflexivity. Qed.

Lemma execute_step_eq code s :
  execute_step code s =
  let allowed := class_ALLOWED_KEYWORDS (world s) in
  let o := execute_safe_code code allowed (exec_namespace s) (ext (world s)) in
  MkOut (exec_res o)
        (MkSys (self s)
           (MkWorld (environ (world s)) allowed (exec_ext o) (S (allocs (world s)))))
        (EExecuteSafeCode code allowed (exec_namespace s)
         :: map (fun cn => EExec (fst cn) (snd cn)) (exec_ran o)).
Proof. unfold execute_step. rewrite bind_get. reflexivity. Qed.

(** [_extract_and_execute_code] as its steps in sequence. *)
Lemma extract_and_execute_steps response :
  _extract_and_execute_code response =
  (emit (EExtract (response_output response)) ;;;
   let code := extract_code_snippet (response_output response) in
   if PyStr.is_empty code
   then raise (Exn ValueError "No valid code snippet generated by the agent.")
   else print ("Generated code:" +:+ PyStr.nl +:+ code) ;;; execute_step code)%py.
Proof. reflexivity. Qed.

Lemma extract_and_execute_empty response s :
  PyStr.is_empty (extract_code_snippet (response_output response)) = true ->
  _extract_and_execute_code response s =
  MkOut (Raise (Exn ValueError "No valid code snippet generated by the agent."))
        s [EExtract (response_output response)].
Proof.
  intros Hempty. rewrite extract_and_execute_steps, bind_emit. cbv zeta.
  rewrite Hempty. reflexivity.
Qed.

(** With a snippet, the method prints it and, if that went through, runs
    the last step in the world the print left. *)
Lemma extract_and_execute_run response s :
  PyStr.is_empty (extract_code_snippet (response_output response)) = false ->
  _extract_and_execute_code response s =
  let code := extract_code_snippet (response_output response) in
  let line := "Generated code:" +:+ PyStr.nl +:+ code in
  let p := py_print line (ext (world s)) in
  match fst p with
  | Raise e =>
      MkOut (Raise e) (with_ext s (snd p))
            [EExtract (response_output response); EPrint line]
  | Ok _ =>
      let o := execute_step code (with_ext s (snd p)) in
      MkOut (res o) (st o)
            (EExtract (response_output response) :: EPrint line :: evs o)
  end.
Proof.
  intros Hcode. rewrite extract_and_execute_steps, bind_emit. cbv zeta.
  rewrite Hcode, bind_unfold, print_eq. cbn [res st evs].
  destruct (fst (py_print _ _)); reflexivity.
Qed.

Lemma is_empty_true (c : string) : PyStr.is_empty c = true <-> c = "".
Proof. destruct c; cbn; split; congruence. Qed.

(** *** The frame of each method *)

Lemma frame_refl s : frame s s.
Proof. split; auto. Qed.

Lemma frame_trans s1 s2 s3 : frame s1 s2 -> frame s2 s3 -> frame s1 s3.
Proof. intros [] []; split; try congruence; lia. Qed.

Lemma frame_with_ext s x : frame s (with_ext s x).
Proof. split; cbn; auto. Qed.

Lemma frame_framed s0 : framed (frame s0).
Proof. intros s s' Hss' Hs. eapply frame_trans; eassumption. Qed.

Lemma print_frame line s : frame s (st (print line s)).
Proof. rewrite print_eq. apply frame_with_ext. Qed.

Lemma validate_columns_frame required s :
  frame s (st (_validate_columns required s)).
Proof. rewrite validate_columns_eq. apply frame_refl. Qed.

Lemma invoke_agent_frame q s : frame s (st (invoke_agent q s)).
Proof. rewrite invoke_agent_eq. apply frame_with_ext. Qed.

Lemma execute_step_frame code s : frame s (st (execute_step code s)).
Proof. rewrite execute_step_eq. split; cbn; auto. Qed.

(** *** What each method emits *)

Lemma hoare_print P line (Q : list event -> Prop) :
  framed P -> Q [EPrint line] -> hoare P (print line) Q.
Proof.
  intros HP HQ s Hs. split.
  - apply (HP s); [apply print_frame|assumption].
  - rewrite print_eq. exact HQ.
Qed.

Lemma hoare_validate_columns P Q required :
  framed P ->
  (forall s, P s -> Q [EValidateColumns (df (self s)) required]) ->
  hoare P (_validate_columns required) Q.
Proof.
  intros HP HQ s Hs. split.
  - apply (HP s); [apply validate_columns_frame|assumption].
  - rewrite validate_columns_eq. apply HQ, Hs.
Qed.

Lemma hoare_invoke_agent P Q q :
  framed P ->
  (forall s d runs, P s ->
     Q (EInvoke (data_analysis_agent (self s)) d :: map EToolExec runs)) ->
  hoare P (invoke_agent q) Q.
Proof.
  intros HP HQ s Hs. split.
  - apply (HP s); [apply invoke_agent_frame|assumption].
  - rewrite invoke_agent_eq. apply HQ, Hs.
Qed.

Lemma hoare_execute_step P Q code :
  framed P ->
  (forall s o, P s ->
     o = execute_safe_code code (class_ALLOWED_KEYWORDS (world s))
           (exec_namespace s) (ext (world s)) ->
     Q (EExecuteSafeCode code (class_ALLOWED_KEYWORDS (world s)) (exec_namespace s)
        :: map (fun cn => EExec (fst cn) (snd cn)) (exec_ran o))) ->
  hoare P (execute_step code) Q.
Proof.
  intros HP HQ s Hs. split.
  - apply (HP s); [apply execute_step_frame|assumption].
  - rewrite execute_step_eq. cbv zeta. eapply HQ; [exact Hs|reflexivity].
Qed.

Lemma hoare_extract_and_execute P Q `{!Sequential Q} response :
  framed P -> pieces P Q -> hoare P (_extract_and_execute_code response) Q.
Proof.
  intros HP [Hprint _ _ Hext Hexec]. rewrite extract_and_execute_steps.
  apply hoare_bind; [assumption|apply hoare_emit, Hext|]. intros _. cbv zeta.
  destruct (PyStr.is_empty _); [apply hoare_raise; assumption|].
  apply hoare_bind; [assumption|apply hoare_print; auto|]. intros _.
  apply hoare_execute_step; auto.
Qed.

(** The whole of a query, for a trace property that every piece meets. *)
Lemma hoare_process_query P Q `{!Sequential Q} q :
  framed P -> pieces P Q -> hoare P (process_query q) Q.
Proof.
  intros HP HQ. pose proof HQ as [Hprint Hval Hinv _ _].
  unfold process_query. apply hoare_try; [assumption| |].
  - unfold process_query_body. apply hoare_bind; [assumption| |].
    + destruct (PyStr.str_in _ _).
      * apply hoare_validate_columns; auto.
      * apply hoare_ret; assumption.
    + intros _. apply hoare_bind; [assumption| |].
      * apply hoare_invoke_agent; auto.
      * intros response. apply hoare_extract_and_execute; auto.
  - intros e. apply hoare_print; auto.
Qed.

Lemma hoare_run_all P Q `{!Sequential Q} queries :
  framed P -> pieces P Q -> hoare P (run_all queries) Q.
Proof.
  intros HP HQ. induction queries as [|q queries IH]; cbn [run_all].
  - apply hoare_ret; assumption.
  - apply hoare_bind; [assumption| |intros _; exact IH].
    unfold run. apply hoare_bind; [assumption| |].
    + apply hoare_print; [assumption|apply HQ].
    + intros _. apply hoare_process_query; assumption.
Qed.

(** *** Initialisation *)

Lemma initialize_llm_eq (w : World) :
  _initialize_llm w =
  match py_float (getenv_int (environ w) "PANDAS_TEMPERATURE" 0) with
  | Ok t => call_ext (new_ChatOpenAI (llm_kwargs (environ w) t) (environ w)) w
  | Raise e => MkOut (Raise e) w []
  end.
Proof.
  unfold _initialize_llm. rewrite bind_get. cbv zeta. rewrite bind_unfold.
  unfold lift_result. cbn [res st evs].
  destruct (py_float _); [|reflexivity]. cbn [app]. apply out_eta.
Qed.

Lemma create_agent_eq (l : ChatModel) (d : DataFrame) (w : World) :
  _create_agent l d w =
  call_ext (new_agent (agent_kwargs l d (df_columns (ext w) d))) w.
Proof. unfold _create_agent. rewrite bind_get. reflexivity. Qed.

Lemma quiet_bind {A B} (m : M World event A) (k : A -> M World event B) :
  quiet m -> (forall a, quiet (k a)) -> quiet (bind m k).
Proof.
  intros Hm Hk w. destruct (Hm w) as (He & Hc & Ha & Ht).
  destruct (bind_cases m k w) as [(a & _ & _ & -> & ->)|(e & _ & _ & -> & ->)].
  - destruct (Hk a (st (m w))) as (He' & Hc' & Ha' & Ht').
    rewrite He', Hc', Ha', Ht, Ht', He, Hc, Ha. auto.
  - auto.
Qed.

Lemma quiet_call_ext {A} (f : Ext -> result A * Ext) : quiet (call_ext f).
Proof. intros w. rewrite call_ext_eq. cbn. auto. Qed.

Lemma quiet_initialize_llm : quiet _initialize_llm.
Proof.
  intros w. rewrite initialize_llm_eq.
  destruct (py_float _); [apply quiet_call_ext|cbn; auto].
Qed.

Lemma quiet_create_agent l d : quiet (_create_agent l d).
Proof. intros w. rewrite create_agent_eq. apply quiet_call_ext. Qed.

(** [__init__] emits nothing and touches the outside world only. *)
Lemma init_quiet : quiet __init__.
Proof.
  unfold __init__. apply quiet_bind; [apply quiet_initialize_llm|].
  intros l. apply quiet_bind; [apply quiet_call_ext|].
  intros h. apply quiet_bind; [apply quiet_call_ext|].
  intros d. apply quiet_bind; [apply quiet_create_agent|].
  intros a w. cbn. auto.
Qed.

(** [__init__] call by call: each collaborator in the outside world the
    one before it left, and the first failure ends it. *)
Lemma init_eq (w : World) :
  __init__ w =
  let i := _initialize_llm w in
  match res i with
  | Raise e => MkOut (Raise e) (st i) []
  | Ok client =>
      let h := DataHandler_new (ext (st i)) in
      match fst h with
      | Raise e => MkOut (Raise e) (set_ext w (snd h)) []
      | Ok handler =>
          let g := get_data handler (snd h) in
          match fst g with
          | Raise e => MkOut (Raise e) (set_ext w (snd g)) []
          | Ok d =>
              let a := new_agent (agent_kwargs client d (df_columns (snd g) d))
                                 (snd g) in
              MkOut (match fst a with
                     | Ok agent => Ok (MkPlotAgent client handler d agent)
                     | Raise e => Raise e
                     end)
                    (set_ext w (snd a)) []
          end
      end
  end.
Proof.
  cbv zeta. unfold __init__. rewrite bind_unfold.
  destruct (quiet_initialize_llm w) as (Henv & Hcls & Hal & Hev).
  rewrite Hev. destruct (res (_initialize_llm w)) as [client|e]; [|reflexivity].
  cbn [app]. rewrite bind_unfold, call_ext_eq. cbn [res st evs].
  assert (Hw : forall x, set_ext (st (_initialize_llm w)) x = set_ext w x).
  { intros x. unfold set_ext. rewrite Henv, Hcls, Hal. reflexivity. }
  rewrite Hw.
  destruct (fst (DataHandler_new _)) as [handler|e]; [|reflexivity].
  cbn [app]. rewrite bind_unfold, call_ext_eq. cbn [res st evs ext set_ext].
  destruct (fst (get_data handler _)) as [d|e]; [|reflexivity].
  cbn [app]. rewrite bind_unfold, create_agent_eq, call_ext_eq.
  cbn [res st evs ext set_ext].
  destruct (fst (new_agent _ _)) as [agent|e]; reflexivity.
Qed.

(** *** Invariants of a session *)

#[local] Instance Forall_sequential (R : event -> Prop) : Sequential (Forall R).
Proof. split; [constructor|intros; apply Forall_app; auto]. Qed.

#[local] Instance True_sequential : Sequential (fun _ : list event => True).
Proof. split; auto. Qed.

Lemma agent_is_framed a allowed : framed (agent_is a allowed).
Proof. intros s s' [] []. split; congruence. Qed.

Lemma Forall_map_exec (R : event -> Prop) (ran : list (string * Namespace DataFrame)) :
  (forall c n, R (EExec c n)) ->
  Forall R (map (fun cn => EExec (fst cn) (snd cn)) ran).
Proof. intros HR. induction ran; constructor; auto. Qed.

Lemma Forall_map_tool (R : event -> Prop) (runs : list string) :
  (forall c, R (EToolExec c)) -> Forall R (map EToolExec runs).
Proof. intros HR. induction runs; constructor; auto. Qed.

Lemma inv_event_pieces a allowed :
  pieces (agent_is a allowed) (Forall (inv_event a allowed)).
Proof.
  split.
  - intros line. repeat constructor.
  - intros s required [<- _]. repeat constructor.
  - intros s d runs [<- _]. constructor; [reflexivity|].
    apply Forall_map_tool. intros; exact I.
  - intros text. repeat constructor.
  - intros s code o [<- <-] _. constructor; [cbn; auto|].
    apply Forall_map_exec. intros; exact I.
Qed.

Lemma process_query_events a allowed q :
  hoare (agent_is a allowed) (process_query q) (Forall (inv_event a allowed)).
Proof.
  apply hoare_process_query;
    [apply _|apply agent_is_framed|apply inv_event_pieces].
Qed.

Lemma run_all_events a allowed queries :
  hoare (agent_is a allowed) (run_all queries) (Forall (inv_event a allowed)).
Proof.
  apply hoare_run_all;
    [apply _|apply agent_is_framed|apply inv_event_pieces].
Qed.

Lemma call_allow_lists_inv a allowed (t : list event) :
  Forall (inv_event a allowed) t -> Forall (eq allowed) (call_allow_lists t).
Proof.
  induction 1 as [|e t He _ IH]; cbn; [constructor|].
  destruct e; cbn in *; auto. destruct He as [-> _]. constructor; auto.
Qed.

Lemma call_namespaces_inv a allowed (t : list event) :
  Forall (inv_event a allowed) t ->
  Forall (fun ns => ns_bind ns = namespace_items (df a)) (call_namespaces t).
Proof.
  induction 1 as [|e t He _ IH]; cbn; [constructor|].
  destruct e; cbn in *; auto. destruct He as [_ Hns]. constructor; auto.
Qed.

Lemma namespace_items_lookup (d : DataFrame) :
  namespace_items d !! "df" = Some (ODataFrame d).
Proof. unfold namespace_items. apply lookup_insert_eq. Qed.

Lemma event_frame_inv a allowed (t : list event) :
  Forall (inv_event a allowed) t ->
  Forall (fun e => forall d, event_frame e = Some d -> d = df a) t.
Proof.
  induction 1 as [|e t He _ IH]; constructor; auto.
  destruct e; cbn in *; try discriminate.
  - intros d [= <-]. assumption.
  - destruct He as [_ ->]. rewrite namespace_items_lookup. intros d [= <-]. reflexivity.
Qed.

(** *** Allocation of namespaces *)

Lemma call_namespaces_app (t1 t2 : list event) :
  call_namespaces (t1 ++ t2) = call_namespaces t1 ++ call_namespaces t2.
Proof.
  induction t1 as [|e t1 IH]; [reflexivity|].
  destruct e; cbn; rewrite IH; reflexivity.
Qed.

Lemma call_namespaces_exec (ran : list (string * Namespace DataFrame)) :
  call_namespaces (map (fun cn => EExec (fst cn) (snd cn)) ran) = [].
Proof. induction ran; cbn; auto. Qed.

Lemma call_namespaces_tool (runs : list string) :
  call_namespaces (map EToolExec runs) = [].
Proof. induction runs; cbn; auto. Qed.

Lemma allocates_same {A} s (o : Out Sys event A) :
  allocs (world (st o)) = allocs (world s) -> call_namespaces (evs o) = [] ->
  allocates s o.
Proof.
  intros Hsame Hnone. split; [lia|]. rewrite Hnone, Hsame, Nat.sub_diag. reflexivity.
Qed.

Lemma allocates_bind {A B} (m : M Sys event A) (k : A -> M Sys event B) s :
  allocates s (m s) -> (forall a, allocates (st (m s)) (k a (st (m s)))) ->
  allocates s (bind m k s).
Proof.
  intros [Hle1 Hid1] Hk. unfold allocates.
  destruct (bind_cases m k s) as [(a & _ & _ & -> & ->)|(e & _ & _ & -> & ->)].
  - destruct (Hk a) as [Hle2 Hid2]. split; [lia|].
    rewrite call_namespaces_app, map_app, Hid1, Hid2.
    replace (allocs (world (st (k a (st (m s))))) - allocs (world s))
      with ((allocs (world (st (m s))) - allocs (world s))
            + (allocs (world (st (k a (st (m s))))) - allocs (world (st (m s)))))
      by lia.
    rewrite List.seq_app. do 2 f_equal. lia.
  - split; assumption.
Qed.

Lemma allocates_try {A} (body : M Sys event A) handler s :
  allocates s (body s) ->
  (forall e, allocates (st (body s)) (handler e (st (body s)))) ->
  allocates s (try_except_Exception body handler s).
Proof.
  intros Hb Hh. pose proof (try_cases body handler s) as Hc. cbv zeta in Hc.
  destruct (res (body s)) as [a|e]; [rewrite Hc; assumption|].
  destruct (is_Exception e); [|rewrite Hc; assumption].
  destruct Hc as (_ & Hst & Hev). destruct Hb as [Hle1 Hid1].
  destruct (Hh e) as [Hle2 Hid2]. unfold allocates. rewrite Hst, Hev. split; [lia|].
  rewrite call_namespaces_app, map_app, Hid1, Hid2.
  replace (allocs (world (st (handler e (st (body s))))) - allocs (world s))
    with ((allocs (world (st (body s))) - allocs (world s))
          + (allocs (world (st (handler e (st (body s))))) - allocs (world (st (body s)))))
    by lia.
  rewrite List.seq_app. do 2 f_equal. lia.
Qed.

Lemma print_allocates line s : allocates s (print line s).
Proof. rewrite print_eq. apply allocates_same; reflexivity. Qed.

Lemma execute_step_allocates code s : allocates s (execute_step code s).
Proof.
  rewrite execute_step_eq. split; cbn; [lia|].
  rewrite call_namespaces_exec.
  replace (S (allocs (world s)) - allocs (world s)) with 1 by lia. reflexivity.
Qed.

Lemma extract_and_execute_allocates response s :
  allocates s (_extract_and_execute_code response s).
Proof.
  rewrite extract_and_execute_steps.
  apply allocates_bind; [apply allocates_same; reflexivity|].
  intros _. cbv zeta. cbn [st emit].
  destruct (PyStr.is_empty _); [apply allocates_same; reflexivity|].
  apply allocates_bind; [apply print_allocates|].
  intros _. apply execute_step_allocates.
Qed.

Lemma process_query_allocates q s : allocates s (process_query q s).
Proof.
  unfold process_query. apply allocates_try.
  - unfold process_query_body. apply allocates_bind.
    + destruct (PyStr.str_in _ _).
      * rewrite validate_columns_eq. apply allocates_same; reflexivity.
      * apply allocates_same; reflexivity.
    + intros _. apply allocates_bind.
      * rewrite invoke_agent_eq. apply allocates_same; [reflexivity|].
        cbv zeta. cbn [evs call_namespaces]. apply call_namespaces_tool.
      * intros response. apply extract_and_execute_allocates.
  - intros e. apply print_allocates.
Qed.

Lemma run_all_allocates queries s : allocates s (run_all queries s).
Proof.
  revert s. induction queries as [|q queries IH]; intros s; cbn [run_all].
  - apply allocates_same; reflexivity.
  - apply allocates_bind; [|intros _; apply IH].
    unfold run. apply allocates_bind; [apply print_allocates|].
    intros _. apply process_query_allocates.
Qed.

(** *** Frames *)

Lemma True_pieces P : pieces P (fun _ : list event => True).
Proof. split; auto. Qed.

Lemma extract_and_execute_frame response s :
  frame s (st (_extract_and_execute_code response s)).
Proof.
  apply (hoare_extract_and_execute (frame s) (fun _ => True) response);
    auto using frame_framed, frame_refl, True_pieces.
Qed.

Lemma process_query_frame q s : frame s (st (process_query q s)).
Proof.
  apply (hoare_process_query (frame s) (fun _ => True) q);
    auto using frame_framed, frame_refl, True_pieces.
Qed.

Lemma run_all_frame queries s : frame s (st (run_all queries s)).
Proof.
  apply (hoare_run_all (frame s) (fun _ => True) queries);
    auto using frame_framed, frame_refl, True_pieces.
Qed.

Lemma run_frame q s : frame s (st (run q s)).
Proof.
  unfold run. rewrite bind_unfold.
  destruct (res (print _ s)); cbn [st]; [|apply print_frame].
  eapply frame_trans; [apply print_frame|apply process_query_frame].
Qed.

(** *** The try suite in closed form *)

Lemma body_eq q s :
  process_query_body q s =
  let pre := if PyStr.str_in "sale price" (PyStr.lower q)
             then _validate_columns ["sale price"; "country"] s
             else ret tt s in
  match res pre with
  | Raise e => MkOut (Raise e) s (evs pre)
  | Ok _ =>
      let i := invoke_agent q s in
      match res i with
      | Raise e => MkOut (Raise e) (st i) (evs pre ++ evs i)
      | Ok response =>
          let x := _extract_and_execute_code response (st i) in
          MkOut (res x) (st x) (evs pre ++ evs i ++ evs x)
      end
  end.
Proof.
  unfold process_query_body. cbv zeta. unfold bind at 1.
  assert (Hst : st ((if PyStr.str_in "sale price" (PyStr.lower q)
                     then _validate_columns ["sale price"; "country"]
                     else ret tt) s) = s).
  { destruct (PyStr.str_in _ _); [rewrite validate_columns_eq|]; reflexivity. }
  rewrite Hst.
  replace ((if PyStr.str_in "sale price" (PyStr.lower q)
            then _validate_columns ["sale price"; "country"]
            else ret tt) s)
    with (if PyStr.str_in "sale price" (PyStr.lower q)
          then _validate_columns ["sale price"; "country"] s
          else ret tt s)
    by (destruct (PyStr.str_in _ _); reflexivity).
  destruct (res (if PyStr.str_in _ _ then _ else _)); [|reflexivity].
  unfold bind. destruct (res (invoke_agent q s)); cbn [res st evs]; reflexivity.
Qed.

(** [process_query] is its [try] suite; when the suite raised an instance
    of [Exception] the handler prints the error, and what that print returns
    is what the query returns. *)
Lemma process_query_try q s :
  let b := process_query_body q s in
  let o := process_query q s in
  match res b with
  | Ok _ => o = b
  | Raise e =>
      if is_Exception e
      then let p := py_print (error_line e) (ext (world (st b))) in
           o = MkOut (fst p) (with_ext (st b) (snd p))
                     (evs b ++ [EPrint (error_line e)])
      else o = b
  end.
Proof.
  cbv zeta.
  pose proof (try_cases (process_query_body q) (fun e => print (error_line e)) s) as Hc.
  cbv zeta in Hc. fold (process_query q) in Hc.
  destruct (res (process_query_body q s)) as [u|e]; [exact Hc|].
  destruct (is_Exception e); [|exact Hc].
  rewrite print_eq in Hc. cbn [res st evs] in Hc. destruct Hc as (Hr & Hs & He).
  rewrite <- (out_eta (process_query q s)), Hr, Hs, He. reflexivity.
Qed.

(** *** Counting events *)

Lemma count_app p (t1 t2 : list event) :
  count p (t1 ++ t2) = count p t1 + count p t2.
Proof. unfold count. rewrite List.filter_app, length_app. reflexivity. Qed.

Lemma count_cons p (e : event) (t : list event) :
  count p (e :: t) = (if p e then 1 else 0) + count p t.
Proof. unfold count. cbn. destruct (p e); reflexivity. Qed.

Lemma count_exec p (ran : list (string * Namespace DataFrame)) :
  (forall c n, p (EExec c n) = false) ->
  count p (map (fun cn => EExec (fst cn) (snd cn)) ran) = 0.
Proof.
  intros Hp. induction ran as [|cn ran IH]; [reflexivity|].
  cbn [map]. rewrite count_cons, Hp. exact IH.
Qed.

Lemma count_tool p (runs : list string) :
  (forall c, p (EToolExec c) = false) -> count p (map EToolExec runs) = 0.
Proof.
  intros Hp. induction runs as [|c runs IH]; [reflexivity|].
  cbn [map]. rewrite count_cons, Hp. exact IH.
Qed.

Lemma count_bind_le {A B} p (m : M Sys event A) (k : A -> M Sys event B) s n1 n2 :
  count p (evs (m s)) <= n1 ->
  (forall a, count p (evs (k a (st (m s)))) <= n2) ->
  count p (evs (bind m k s)) <= n1 + n2.
Proof.
  intros Hm Hk.
  destruct (bind_cases m k s) as [(a & _ & _ & _ & ->)|(e & _ & _ & _ & ->)].
  - rewrite count_app. specialize (Hk a). lia.
  - lia.
Qed.

Lemma count_try_le {A} p (body : M Sys event A) handler s n1 n2 :
  count p (evs (body s)) <= n1 ->
  (forall e, count p (evs (handler e (st (body s)))) <= n2) ->
  count p (evs (try_except_Exception body handler s)) <= n1 + n2.
Proof.
  intros Hb Hh. pose proof (try_cases body handler s) as Hc. cbv zeta in Hc.
  destruct (res (body s)) as [a|e]; [rewrite Hc; lia|].
  destruct (is_Exception e); [|rewrite Hc; lia].
  destruct Hc as (_ & _ & ->). rewrite count_app. specialize (Hh e). lia.
Qed.

Lemma count_print p line s :
  call_kind p -> count p (evs (print line s)) = 0.
Proof.
  intros (_ & Hprint & _). rewrite print_eq. cbn [evs].
  rewrite count_cons, Hprint. reflexivity.
Qed.

Lemma count_invoke_agent p q s :
  (forall c, p (EToolExec c) = false) ->
  count p (evs (invoke_agent q s))
  = if p (EInvoke (data_analysis_agent (self s)) {[ "input" := q ]}) then 1 else 0.
Proof.
  intros Htool. rewrite invoke_agent_eq. cbv zeta. cbn [evs].
  rewrite count_cons, count_tool by assumption. lia.
Qed.

Lemma count_extract_and_execute p response s :
  call_kind p ->
  count p (evs (_extract_and_execute_code response s)) <= 1 /\
  ((forall c a n, p (EExecuteSafeCode c a n) = false) ->
   count p (evs (_extract_and_execute_code response s)) = 0).
Proof.
  intros (Hext & Hprint & Hexec & Htool).
  destruct (PyStr.is_empty (extract_code_snippet (response_output response)))
    eqn:Hcode.
  - rewrite extract_and_execute_empty by assumption. cbn [evs].
    rewrite count_cons, Hext. cbn. auto.
  - rewrite extract_and_execute_run by assumption. cbv zeta.
    destruct (fst (py_print _ _)); cbn [evs].
    + rewrite execute_step_eq. cbv zeta. cbn [evs].
      rewrite !count_cons, Hext, Hprint, count_exec by assumption. split.
      * destruct (p _); cbn; lia.
      * intros ->. reflexivity.
    + rewrite !count_cons, Hext, Hprint. cbn. auto.
Qed.

Lemma count_process_query_body p q s :
  call_kind p ->
  (forall f r, p (EValidateColumns f r) = false) ->
  (forall a d, p (EInvoke a d) = false) \/
  (forall c a n, p (EExecuteSafeCode c a n) = false) ->
  count p (evs (process_query_body q s)) <= 1.
Proof.
  intros Hkind Hval Hone. pose proof Hkind as (_ & _ & _ & Htool).
  unfold process_query_body.
  change 1 with (0 + 1). apply count_bind_le.
  { destruct (PyStr.str_in _ _); [rewrite validate_columns_eq|]; cbn [evs ret];
      rewrite ?count_cons, ?Hval; cbn; lia. }
  intros _. destruct Hone as [Hinv|Hcall].
  - change 1 with (0 + 1). apply count_bind_le.
    + rewrite count_invoke_agent, Hinv by assumption. lia.
    + intros response. apply count_extract_and_execute; assumption.
  - change 1 with (1 + 0). apply count_bind_le.
    + rewrite count_invoke_agent by assumption. destruct (p _); lia.
    + intros response.
      apply Nat.eq_le_incl.
      apply (proj2 (count_extract_and_execute p response _ Hkind)), Hcall.
Qed.

Lemma count_process_query p q s :
  call_kind p ->
  (forall f r, p (EValidateColumns f r) = false) ->
  (forall a d, p (EInvoke a d) = false) \/
  (forall c a n, p (EExecuteSafeCode c a n) = false) ->
  count p (evs (process_query q s)) <= 1.
Proof.
  intros Hkind Hval Hone. unfold process_query. change 1 with (1 + 0).
  apply count_try_le.
  - apply count_process_query_body; assumption.
  - intros e. rewrite count_print by assumption. lia.
Qed.

End Theory.

(** ** Properties that rest on todsop03.py alone

    They hold for every implementation of [CodeExecutor]. *)

Section OnTheSource.
Context {X : Externals} {CE : CodeExecutorAPI}.
Implicit Types (s : Sys) (q : string) (response : gmap string string).

(** What [process_query] emits: what its [try] suite emits, and then at
    most the error line. *)
Lemma process_query_evs q s :
  exists suffix,
    evs (process_query q s) = evs (process_query_body q s) ++ suffix /\
    (suffix = [] \/ exists line, suffix = [EPrint line]).
Proof.
  pose proof (process_query_try q s) as Hc. cbv zeta in Hc.
  destruct (res (process_query_body q s)) as [u|e].
  - exists []. rewrite Hc, app_nil_r. auto.
  - destruct (is_Exception e).
    + rewrite Hc. cbn [evs]. eauto.
    + exists []. rewrite Hc, app_nil_r. auto.
Qed.

Lemma missing_columns_spec s required col :
  col ∈ missing_columns s required <->
  col ∈ required /\ col ∉ df_columns (ext (world s)) (df (self s)).
Proof.
  unfold missing_columns. rewrite !list_elem_of_In, List.filter_In.
  unfold PyStr.mem. rewrite negb_true_iff, bool_decide_eq_false.
  rewrite list_elem_of_In. reflexivity.
Qed.

(** The [try] suite once the column check is passed or skipped. *)
Lemma body_after_check q s :
  PyStr.str_in "sale price" (PyStr.lower q) = false \/
  missing_columns s ["sale price"; "country"] = [] ->
  process_query_body q s =
  let checked := if PyStr.str_in "sale price" (PyStr.lower q)
                 then [EValidateColumns (df (self s)) ["sale price"; "country"]]
                 else [] in
  let i := invoke_agent q s in
  match res i with
  | Raise e => MkOut (Raise e) (st i) (checked ++ evs i)
  | Ok response =>
      let x := _extract_and_execute_code response (st i) in
      MkOut (res x) (st x) (checked ++ evs i ++ evs x)
  end.
Proof.
  intros Hpass. rewrite body_eq. cbv zeta.
  destruct (PyStr.str_in "sale price" (PyStr.lower q)).
  - rewrite validate_columns_eq. destruct Hpass as [Hp | ->]; [discriminate|].
    reflexivity.
  - reflexivity.
Qed.

(** Once the column check is passed or skipped, the agent is invoked, and
    nothing after that validates columns. *)
Lemma body_invokes q s :
  let required := ["sale price"; "country"] in
  let check := PyStr.str_in "sale price" (PyStr.lower q) in
  check = false \/ missing_columns s required = [] ->
  exists t,
    evs (process_query_body q s)
    = (if check then [EValidateColumns (df (self s)) required] else [])
      ++ EInvoke (data_analysis_agent (self s)) {[ "input" := q ]} :: t /\
    count is_EValidateColumns t = 0.
Proof.
  cbv zeta. intros Hpass. rewrite (body_after_check q s Hpass). cbv zeta.
  assert (Hkind : call_kind is_EValidateColumns)
    by (repeat split; intros; reflexivity).
  rewrite invoke_agent_eq. cbv zeta. cbn [res st evs].
  destruct (fst (agent_invoke _ _ _)) as [response|e]; cbn [evs app].
  - eexists. split; [reflexivity|]. rewrite count_app, count_tool by apply Hkind.
    apply (proj2 (count_extract_and_execute is_EValidateColumns response _ Hkind)).
    intros; reflexivity.
  - eexists. split; [reflexivity|]. apply count_tool, Hkind.
Qed.

(** C2.  When the snippet extracted from the agent's response is empty,
    [_extract_and_execute_code] raises [ValueError] with the message
    "No valid code snippet generated by the agent.", having done nothing but
    call the extractor; and in the query that got this response the executor
    is not called and no snippet runs. *)
Theorem empty_snippet_is_an_error q s response :
  fst (agent_invoke (data_analysis_agent (self s)) {[ "input" := q ]} (ext (world s)))
    = Ok response ->
  extract_code_snippet (response_output response) = "" ->
  (forall s',
     _extract_and_execute_code response s' =
     MkOut (Raise (Exn ValueError "No valid code snippet generated by the agent."))
           s' [EExtract (response_output response)]) /\
  count is_EExecuteSafeCode (evs (process_query q s)) = 0 /\
  count is_EExec (evs (process_query q s)) = 0.
Proof.
  intros Hreply Hempty.
  assert (Hraise : forall s',
     _extract_and_execute_code response s' =
     MkOut (Raise (Exn ValueError "No valid code snippet generated by the agent."))
           s' [EExtract (response_output response)]).
  { intros s'. apply extract_and_execute_empty, is_empty_true, Hempty. }
  split; [exact Hraise|].
  assert (Hbody : forall p,
            (forall text, p (EExtract text) = false) ->
            (forall c, p (EToolExec c) = false) ->
            (forall f r, p (EValidateColumns f r) = false) ->
            (forall a d, p (EInvoke a d) = false) ->
            count p (evs (process_query_body q s)) = 0).
  { intros p Hext Htool Hval Hinv.
    rewrite body_eq. cbv zeta.
    assert (Hrest : count p
              (evs (invoke_agent q s)
               ++ evs (_extract_and_execute_code response (st (invoke_agent q s))))
              = 0).
    { rewrite count_app, count_invoke_agent, Hinv, Hraise by assumption.
      cbn [evs]. rewrite count_cons, Hext. reflexivity. }
    assert (Hres : res (invoke_agent q s) = Ok response)
      by (rewrite invoke_agent_eq; exact Hreply).
    rewrite Hres.
    destruct (PyStr.str_in _ _).
    - rewrite validate_columns_eq. cbn [res evs].
      destruct (missing_columns _ _); cbn [res st evs app].
      + rewrite count_cons, Hval. exact Hrest.
      + rewrite count_cons, Hval. reflexivity.
    - cbn [ret res evs app]. exact Hrest. }
  assert (Hquery : forall p,
            (forall text, p (EExtract text) = false) ->
            (forall c, p (EToolExec c) = false) ->
            (forall line, p (EPrint line) = false) ->
            (forall f r, p (EValidateColumns f r) = false) ->
            (forall a d, p (EInvoke a d) = false) ->
            count p (evs (process_query q s)) = 0).
  { intros p Hext Htool Hprint Hval Hinv.
    pose proof (Hbody p Hext Htool Hval Hinv) as Hzero.
    destruct (process_query_evs q s) as (suffix & -> & Hsuffix).
    rewrite count_app, Hzero.
    destruct Hsuffix as [-> | [line ->]]; [reflexivity|].
    rewrite count_cons, Hprint. reflexivity. }
  split; apply Hquery; intros; reflexivity.
Qed.

(** C3 (amended).  [process_query] catches what its [try] suite raises
    whenever that is an instance of [Exception], and its handler prints
    "An error occurred while processing the query: " followed by the
    exception's text; what that print returns is what the query returns, so
    the query returns normally when the line gets out.  An exception outside
    the [Exception] hierarchy reaches the caller unchanged, with nothing
    printed, and so does an exception the handler's print raises.  These are
    the only ways [process_query] raises. *)
Theorem process_query_boundary q s :
  let b := process_query_body q s in
  let o := process_query q s in
  match res b with
  | Ok u => o = b
  | Raise e =>
      if is_Exception e
      then let p := py_print (error_line e) (ext (world (st b))) in
           o = MkOut (fst p) (with_ext (st b) (snd p))
                     (evs b ++ [EPrint (error_line e)])
      else o = b
  end /\
  (forall e',
     res o = Raise e' <->
     (res b = Raise e' /\ is_Exception e' = false) \/
     (exists e, res b = Raise e /\ is_Exception e = true /\
                fst (py_print (error_line e) (ext (world (st b)))) = Raise e')).
Proof.
  cbv zeta. pose proof (process_query_try q s) as Hc. cbv zeta in Hc.
  split; [exact Hc|]. intros e'.
  destruct (res (process_query_body q s)) as [u|e] eqn:Hres.
  - rewrite Hc, Hres. split; [discriminate|].
    intros [[Hr _]|(e & Hr & _)]; discriminate.
  - destruct (is_Exception e) eqn:Hexn.
    + rewrite Hc. cbn [res]. split.
      * intros Hp. right. exists e. auto.
      * intros [[[= ->] Hno]|(e0 & [= <-] & _ & Hp)]; [congruence|exact Hp].
    + rewrite Hc, Hres. split.
      * intros [= <-]. left. auto.
      * intros [[Hr _]|(e0 & [= <-] & Hyes & _)]; [exact Hr|congruence].
Qed.

(** C4.  [PlotAgent.ALLOWED_KEYWORDS] is the list of the twelve keywords
    of lines 18-21.  From the class statement on, through [__init__] and any
    number of queries, the attribute keeps that value, and every call of the
    executor is handed it; no method of [PlotAgent] changes the attribute. *)
Theorem allowed_keywords_fixed (env : gmap string string) (x : Ext)
  (queries : list string) :
  ALLOWED_KEYWORDS =
    ["df"; "iloc"; "to_dict"; "mean"; "mode"; "std";
     "max"; "min"; "color"; "plot"; "unique"; "groupby"] /\
  (let o := session queries (class_PlotAgent env x) in
   class_ALLOWED_KEYWORDS (st o) = ALLOWED_KEYWORDS /\
   Forall (eq ALLOWED_KEYWORDS) (call_allow_lists (evs o))) /\
  (forall w, class_ALLOWED_KEYWORDS (st (__init__ w)) = class_ALLOWED_KEYWORDS w) /\
  (forall s required,
     class_ALLOWED_KEYWORDS (world (st (_validate_columns required s)))
     = class_ALLOWED_KEYWORDS (world s)) /\
  (forall s response,
     class_ALLOWED_KEYWORDS (world (st (_extract_and_execute_code response s)))
     = class_ALLOWED_KEYWORDS (world s)) /\
  (forall s q,
     class_ALLOWED_KEYWORDS (world (st (process_query q s)))
     = class_ALLOWED_KEYWORDS (world s)) /\
  (forall s q,
     class_ALLOWED_KEYWORDS (world (st (run q s)))
     = class_ALLOWED_KEYWORDS (world s)).
Proof.
  split; [reflexivity|]. split.
  - cbv zeta. unfold session.
    destruct (init_quiet (class_PlotAgent env x)) as (_ & Hclass & _ & Hevs).
    destruct (res (__init__ (class_PlotAgent env x))) as [a|e]; cbn [st evs].
    + set (s0 := MkSys a (st (__init__ (class_PlotAgent env x)))).
      assert (Hs0 : agent_is a ALLOWED_KEYWORDS s0) by (split; [reflexivity|exact Hclass]).
      destruct (run_all_events a ALLOWED_KEYWORDS queries s0 Hs0) as [[_ Hkeep] Hall].
      split; [exact Hkeep|]. rewrite Hevs. cbn [app].
      eapply call_allow_lists_inv, Hall.
    + split; [exact Hclass|]. rewrite Hevs. constructor.
  - split; [intros w; apply init_quiet|].
    split; [intros; apply validate_columns_frame|].
    split; [intros; apply extract_and_execute_frame|].
    split; [intros; apply process_query_frame|].
    intros; apply run_frame.
Qed.

(** C6.  When the lowercased query contains "sale price", the first thing
    [process_query] does is check the frame for the columns "sale price"
    and "country".  If some are missing, [_validate_columns] raises
    [ValueError] with "Missing required columns: " and all the missing ones,
    comma-separated; the agent is not invoked and the query ends with the
    handler printing that error.  If none is missing, the agent is invoked
    next.  When the query does not contain "sale price", no column check
    happens and the agent is invoked first. *)
Theorem sale_price_column_check q s :
  let required := ["sale price"; "country"] in
  let missing := missing_columns s required in
  let agent := data_analysis_agent (self s) in
  let o := process_query q s in
  (forall col, col ∈ missing <->
               col ∈ required /\ col ∉ df_columns (ext (world s)) (df (self s))) /\
  if PyStr.str_in "sale price" (PyStr.lower q)
  then match missing with
       | [] =>
           exists t, evs o = EValidateColumns (df (self s)) required
                             :: EInvoke agent {[ "input" := q ]} :: t
       | _ :: _ =>
           let e := Exn ValueError
                      ("Missing required columns: " +:+ PyStr.join ", " missing) in
           let p := py_print (error_line e) (ext (world s)) in
           _validate_columns required s
             = MkOut (Raise e) s [EValidateColumns (df (self s)) required] /\
           o = MkOut (fst p) (with_ext s (snd p))
                 [EValidateColumns (df (self s)) required; EPrint (error_line e)] /\
           count is_EInvoke (evs o) = 0
       end
  else count is_EValidateColumns (evs o) = 0 /\
       exists t, evs o = EInvoke agent {[ "input" := q ]} :: t.
Proof.
  cbv zeta. split; [intros col; apply missing_columns_spec|].
  pose proof (body_invokes q s) as Ht. cbv zeta in Ht.
  pose proof (process_query_try q s) as Hb. cbv zeta in Hb.
  destruct (PyStr.str_in "sale price" (PyStr.lower q)) eqn:Hcheck.
  - destruct (missing_columns s ["sale price"; "country"]) as [|m ms] eqn:Hmiss.
    + destruct (process_query_evs q s) as (suffix & -> & _).
      destruct (Ht (or_intror eq_refl)) as (t & -> & _).
      cbn [app]. eauto.
    + clear Ht. rewrite validate_columns_eq, Hmiss.
      rewrite body_eq in Hb. cbv zeta in Hb.
      rewrite Hcheck, validate_columns_eq, Hmiss in Hb.
      cbn [res is_Exception exn_cls st evs app] in Hb.
      split; [reflexivity|]. rewrite Hb. split; reflexivity.
  - destruct (process_query_evs q s) as (suffix & -> & Hsuffix).
    destruct (Ht (or_introl eq_refl)) as (t & -> & Hnone).
    cbn [app]. split; [|eauto].
    rewrite count_cons, count_app, Hnone.
    destruct Hsuffix as [-> | [line ->]]; reflexivity.
Qed.

(** C7.  One call of [process_query] invokes the agent at most once and
    calls the executor at most once.  When the attempt fails, nothing follows
    the failure but the printed error (or, for an exception that is not
    caught, nothing at all): no second attempt. *)
Theorem one_attempt_per_query q s :
  let b := process_query_body q s in
  let o := process_query q s in
  count is_EInvoke (evs o) <= 1 /\
  count is_EExecuteSafeCode (evs o) <= 1 /\
  match res b with
  | Ok _ => evs o = evs b
  | Raise e =>
      evs o = evs b ++ (if is_Exception e then [EPrint (error_line e)] else [])
  end.
Proof.
  cbv zeta. split; [|split].
  - apply count_process_query;
      [repeat split; intros; reflexivity|intros; reflexivity|].
    right. intros; reflexivity.
  - apply count_process_query;
      [repeat split; intros; reflexivity|intros; reflexivity|].
    left. intros; reflexivity.
  - pose proof (process_query_try q s) as Hb. cbv zeta in Hb.
    destruct (res (process_query_body q s)) as [u|e]; [rewrite Hb; reflexivity|].
    destruct (is_Exception e).
    + rewrite Hb. reflexivity.
    + rewrite Hb, app_nil_r. reflexivity.
Qed.

(** C9.  [_initialize_llm] calls the client's constructor with the base
    URL and the model of PANDAS_BASE_URL and PANDAS_MODEL, falling back to
    'https://api.opentyphoon.ai/v1' and 'typhoon-v1.5x-70b-instruct'; with
    the API key of PLOT_API_KEY, or [None]; and with the temperature
    [float] of PANDAS_TEMPERATURE when that is set, and [float(0)], which is
    0.0, when it is not.  What the constructor returns or raises is what the
    method returns or raises.  When PANDAS_TEMPERATURE is set to something
    [float] rejects, the method raises that [ValueError] and the constructor
    is not reached. *)
Theorem initialize_llm_config (w : World) :
  let env := environ w in
  match py_float (getenv_int env "PANDAS_TEMPERATURE" 0) with
  | Ok t =>
      match env !! "PANDAS_TEMPERATURE" with
      | None => t = S754_zero false
      | Some v => float_of_str v = Some t
      end /\
      let kwargs :=
        ChatOpenAI
          (default "https://api.opentyphoon.ai/v1" (env !! "PANDAS_BASE_URL"))
          (default "typhoon-v1.5x-70b-instruct" (env !! "PANDAS_MODEL"))
          (env !! "PLOT_API_KEY")
          t in
      let c := new_ChatOpenAI kwargs env (ext w) in
      _initialize_llm w = MkOut (fst c) (set_ext w (snd c)) []
  | Raise e =>
      _initialize_llm w = MkOut (Raise e) w [] /\
      exn_cls e = ValueError /\
      exists v, env !! "PANDAS_TEMPERATURE" = Some v /\ float_of_str v = None
  end.
Proof.
  cbv zeta. rewrite initialize_llm_eq.
  unfold getenv_int, py_float.
  destruct (environ w !! "PANDAS_TEMPERATURE") as [v|].
  - destruct (float_of_str v) as [f|] eqn:Hf.
    + split; [reflexivity|]. rewrite call_ext_eq. unfold llm_kwargs, getenv.
      do 2 destruct (environ w !! _); reflexivity.
    + cbn. eauto.
  - split; [reflexivity|]. rewrite call_ext_eq. unfold llm_kwargs, getenv.
    do 2 destruct (environ w !! _); reflexivity.
Qed.

(** C10.  [__init__] calls [DataHandler()] and then [get_data()] on it,
    and when these and the two constructors succeed it returns the instance
    whose [df] is the frame [get_data()] returned, the agent having been
    built over that same frame; when one of them raises, so does
    [__init__].  After that the attribute is never rebound: over any
    sequence of queries every column validation checks that frame and every
    namespace binds [df] to it, and [_validate_columns],
    [_extract_and_execute_code], [process_query] and [run] leave all four
    attributes as they were. *)
Theorem dataframe_fixed :
  (forall w,
     let i := _initialize_llm w in
     match res i with
     | Raise e => res (__init__ w) = Raise e
     | Ok client =>
         match DataHandler_new (ext (st i)) with
         | (Raise e, _) => res (__init__ w) = Raise e
         | (Ok handler, x1) =>
             match get_data handler x1 with
             | (Raise e, _) => res (__init__ w) = Raise e
             | (Ok d, x2) =>
                 let kwargs := agent_kwargs client d (df_columns x2 d) in
                 agent_df kwargs = d /\
                 match new_agent kwargs x2 with
                 | (Raise e, _) => res (__init__ w) = Raise e
                 | (Ok agent, x3) =>
                     __init__ w =
                     MkOut (Ok (MkPlotAgent client handler d agent))
                           (set_ext w x3) []
                 end
             end
         end
     end) /\
  (forall s queries,
     let o := run_all queries s in
     self (st o) = self s /\
     Forall (fun e => forall d, event_frame e = Some d -> d = df (self s)) (evs o)) /\
  (forall s required, self (st (_validate_columns required s)) = self s) /\
  (forall s response, self (st (_extract_and_execute_code response s)) = self s) /\
  (forall s q, self (st (process_query q s)) = self s) /\
  (forall s q, self (st (run q s)) = self s).
Proof.
  split.
  { intros w. cbv zeta. rewrite init_eq. cbv zeta.
    destruct (res (_initialize_llm w)) as [client|e]; [|reflexivity].
    destruct (DataHandler_new _) as [[handler|e] x1]; cbn [fst snd]; [|reflexivity].
    destruct (get_data handler x1) as [[d|e] x2]; cbn [fst snd]; [|reflexivity].
    split; [reflexivity|].
    destruct (new_agent _ x2) as [[agent|e] x3]; reflexivity. }
  split.
  { intros s queries. cbv zeta. split; [apply run_all_frame|].
    assert (Hs : agent_is (self s) (class_ALLOWED_KEYWORDS (world s)) s)
      by (split; reflexivity).
    destruct (run_all_events _ _ queries s Hs) as [_ Hall].
    eapply event_frame_inv, Hall. }
  split; [intros; apply validate_columns_frame|].
  split; [intros; apply extract_and_execute_frame|].
  split; [intros; apply process_query_frame|].
  intros; apply run_frame.
Qed.

End OnTheSource.

(** ** Properties that rest on CodeExecutor as specified *)

Section SpecifiedExecutor.
Context {X : Externals}.
Variable py_exec : string -> Namespace DataFrame -> Ext -> result unit * Ext.

Local Abbreviation spec := (CodeExecutor.spec_executor py_exec).

Lemma gated_app_cons allowed (t1 t2 : list event) :
  gated allowed t2 ->
  (gated allowed t1 -> gated allowed (t1 ++ t2)) /\
  (forall e, gated allowed (e :: t1) -> gated allowed (e :: t1 ++ t2)).
Proof.
  intros H2. induction t1 as [|a t1 [IH1 IH2]].
  - split; [intros _; exact H2|].
    intros [line|f r|ag d|tool|text|c al ns|c ns]; cbn; try (intros _; exact H2).
    + intros [-> Hrest]. split; [reflexivity|].
      destruct (CodeExecutor.validate _ _); [contradiction|exact H2].
    + intros [].
  - split; [apply IH2|].
    intros [line|f r|ag d|tool|text|c al ns|c ns] He; cbn in He |- *;
      try (apply IH2; exact He).
    + destruct He as [-> Hrest]. split; [reflexivity|].
      destruct (CodeExecutor.validate _ _); [|apply IH2; exact Hrest].
      destruct a; try contradiction.
      destruct Hrest as (-> & -> & Hrest). auto.
    + contradiction.
Qed.

#[local] Instance gated_sequential allowed : Sequential (gated allowed).
Proof.
  split; [exact I|]. intros t1 t2 H1 H2.
  apply (gated_app_cons allowed t1 t2 H2), H1.
Qed.

Lemma gated_tool allowed (runs : list string) :
  gated (X := X) allowed (map EToolExec runs).
Proof. induction runs; cbn; auto. Qed.

(** What the specified executor does with a snippet. *)
Lemma spec_execute_cases code allowed ns x :
  let o := CodeExecutor.execute_safe_code py_exec code allowed ns x in
  if CodeExecutor.validate code allowed
  then o = MkExecOut (fst (py_exec code ns x)) (snd (py_exec code ns x)) [(code, ns)]
  else o = MkExecOut
             (Raise (Exn ValueError
                       ("Disallowed tokens in generated code: "
                        +:+ PyStr.join ", " (CodeExecutor.disallowed_tokens code allowed))))
             x [].
Proof.
  cbv zeta. unfold CodeExecutor.execute_safe_code.
  destruct (CodeExecutor.validate code allowed); [|reflexivity].
  destruct (py_exec code ns x); reflexivity.
Qed.

(** What a call of the specified executor adds to a trace. *)
Lemma spec_call_gated allowed code ns x :
  gated allowed
    (EExecuteSafeCode code allowed ns
     :: map (fun cn => EExec (fst cn) (snd cn))
            (exec_ran (CodeExecutor.execute_safe_code py_exec code allowed ns x))).
Proof.
  cbn. split; [reflexivity|].
  pose proof (spec_execute_cases code allowed ns x) as Hc. cbv zeta in Hc.
  destruct (CodeExecutor.validate code allowed); rewrite Hc; cbn; auto.
Qed.

Lemma gated_pieces allowed :
  pieces (CE := spec) (fun s => class_ALLOWED_KEYWORDS (world s) = allowed)
         (gated allowed).
Proof.
  split.
  - intros line. exact I.
  - intros s required _. exact I.
  - intros s d runs _. cbn. apply gated_tool.
  - intros text. exact I.
  - intros s code o <- ->. apply spec_call_gated.
Qed.

Lemma allow_list_framed allowed :
  framed (X := X) (fun s => class_ALLOWED_KEYWORDS (world s) = allowed).
Proof. intros s s' [] Hs. congruence. Qed.

Lemma run_all_gated allowed queries :
  hoare (fun s => class_ALLOWED_KEYWORDS (world s) = allowed)
        (run_all (CE := spec) queries) (gated allowed).
Proof.
  apply hoare_run_all; [apply _|apply allow_list_framed|apply gated_pieces].
Qed.


(** In a gated trace the namespaces snippets ran in are among those handed
    to the executor, in the same order. *)
Lemma gated_run_namespaces allowed (t : list event) :
  gated allowed t -> sublist (run_namespaces t) (call_namespaces t).
Proof.
  assert (Hboth : forall t,
            (gated allowed t -> sublist (run_namespaces t) (call_namespaces t)) /\
            (forall c ns,
               match t with
               | EExec c' ns' :: t'' => c' = c /\ ns' = ns /\ gated allowed t''
               | _ => False
               end ->
               sublist (run_namespaces t) (ns :: call_namespaces t))).
  { clear t. induction t as [|a t [IH1 IH2]].
    - split; [constructor|]. intros c ns [].
    - split.
      + destruct a as [line|f r|ag d|tool|text|c al ns|c ns]; cbn;
          try (intros Hg; exact (IH1 Hg)).
        * intros [-> Hrest].
          destruct (CodeExecutor.validate c allowed);
            [eapply IH2; eassumption|].
          apply sublist_cons, IH1, Hrest.
        * intros [].
      + intros c ns Ht. destruct a; try contradiction.
        destruct Ht as (-> & -> & Hrest). cbn. apply sublist_skip, IH1, Hrest. }
  apply Hboth.
Qed.


(** C5.  When [_extract_and_execute_code] has a snippet and has printed
    it, it builds one new dict, binding [df] to the agent's frame and [pd]
    and [plt] to the pandas and pyplot modules, and hands that dict to the
    executor; with no snippet, or when the print raises, it builds none.
    Over any sequence of queries every namespace handed over binds exactly
    these three names, each call gets a dict of its own, allocated during
    the sequence, and the agent holds on to none of them: its attributes are
    what they were.  With [CodeExecutor] as specified, a snippet runs in the
    namespace of its call and in no other. *)
Theorem namespace_fresh_per_call (CE : CodeExecutorAPI) (s : Sys)
  (queries : list string) :
  (forall response,
     let code := extract_code_snippet (response_output response) in
     let line := "Generated code:" +:+ PyStr.nl +:+ code in
     let o := _extract_and_execute_code response s in
     let built := if PyStr.is_empty code then false
                  else match fst (py_print line (ext (world s))) with
                       | Ok _ => true
                       | Raise _ => false
                       end in
     call_namespaces (evs o)
     = (if built
        then [MkNamespace (allocs (world s))
                {[ "df" := ODataFrame (df (self s));
                   "pd" := OModule "pandas";
                   "plt" := OModule "matplotlib.pyplot" ]}]
        else []) /\
     count is_EExecuteSafeCode (evs o) = (if built then 1 else 0) /\
     allocs (world (st o)) = (if built then S (allocs (world s)) else allocs (world s))) /\
  (let o := run_all queries s in
   let spaces := call_namespaces (evs o) in
   Forall (fun ns =>
             ns_bind ns = {[ "df" := ODataFrame (df (self s));
                             "pd" := OModule "pandas";
                             "plt" := OModule "matplotlib.pyplot" ]} /\
             dom (ns_bind ns) = ({[ "df"; "pd"; "plt" ]} : gset string))
          spaces /\
   NoDup (map ns_id spaces) /\
   Forall (fun ns => allocs (world s) <= ns_id ns) spaces /\
   self (st o) = self s) /\
  (forall response,
     let code := CodeExecutor.extract_code_snippet (response_output response) in
     let line := "Generated code:" +:+ PyStr.nl +:+ code in
     let o := _extract_and_execute_code (CE := spec) response s in
     run_namespaces (evs o)
     = if CodeExecutor.validate code (class_ALLOWED_KEYWORDS (world s))
       then match fst (py_print line (ext (world s))) with
            | Ok _ => [exec_namespace s]
            | Raise _ => []
            end
       else []) /\
  (let o := run_all (CE := spec) queries s in
   sublist (run_namespaces (evs o)) (call_namespaces (evs o))).
Proof.
  split; [|split; [|split]].
  - intros response. cbv zeta.
    destruct (PyStr.is_empty (extract_code_snippet (response_output response)))
      eqn:Hcode.
    + rewrite extract_and_execute_empty by exact Hcode. cbn. auto.
    + rewrite extract_and_execute_run by exact Hcode. cbv zeta.
      destruct (fst (py_print _ _)) as [u|e]; [|cbn; auto].
      rewrite execute_step_eq. cbv zeta. cbn [res st evs call_namespaces].
      rewrite call_namespaces_exec, !count_cons, count_exec
        by (intros; reflexivity).
      cbn. auto.
  - cbv zeta.
    assert (Hs : agent_is (self s) (class_ALLOWED_KEYWORDS (world s)) s)
      by (split; reflexivity).
    destruct (run_all_events _ _ queries s Hs) as [_ Hall].
    destruct (run_all_allocates queries s) as [_ Hids].
    split; [|split; [|split]].
    + eapply Forall_impl; [eapply call_namespaces_inv, Hall|].
      intros ns ->. split; [reflexivity|]. unfold namespace_items.
      rewrite !dom_insert_L, dom_singleton_L. set_solver.
    + rewrite Hids. apply NoDup_seq.
    + apply List.Forall_map with (P := fun i => allocs (world s) <= i).
      rewrite Hids. apply List.Forall_forall. intros i Hi.
      apply List.in_seq in Hi. lia.
    + apply run_all_frame.
  - intros response. cbv zeta.
    destruct (PyStr.is_empty (CodeExecutor.extract_code_snippet (response_output response)))
      eqn:Hcode.
    + apply is_empty_true in Hcode as Hempty. rewrite Hempty.
      change (CodeExecutor.validate "" _) with false. cbv iota.
      rewrite (extract_and_execute_empty (CE := spec)) by exact Hcode. reflexivity.
    + rewrite (extract_and_execute_run (CE := spec)) by exact Hcode.
      cbv zeta. cbn [extract_code_snippet spec CodeExecutor.spec_executor].
      pose proof (spec_execute_cases
                    (CodeExecutor.extract_code_snippet (response_output response))
                    (class_ALLOWED_KEYWORDS (world s)) (exec_namespace s)
                    (snd (py_print
                            ("Generated code:" +:+ PyStr.nl
                             +:+ CodeExecutor.extract_code_snippet
                                   (response_output response))
                            (ext (world s))))) as Hc.
      cbv zeta in Hc.
      destruct (fst (py_print _ _)) as [u|e'].
      * rewrite (execute_step_eq (CE := spec)). cbv zeta.
        cbn [res st evs world ext self with_ext set_ext class_ALLOWED_KEYWORDS
             execute_safe_code spec CodeExecutor.spec_executor].
        change (exec_namespace (with_ext s ?x)) with (exec_namespace s).
        destruct (CodeExecutor.validate _ _); rewrite Hc; reflexivity.
      * destruct (CodeExecutor.validate _ _); reflexivity.
  - cbv zeta.
    apply (gated_run_namespaces (class_ALLOWED_KEYWORDS (world s))).
    apply (run_all_gated (class_ALLOWED_KEYWORDS (world s)) queries). reflexivity.
Qed.

End SpecifiedExecutor.

(** ** The definitions at work *)

(** The specified validator on the snippets of the scenarios: the first
    passes, the second is refused with its offending tokens, and a quote
    inside a comment hides nothing from it. *)
Lemma validator_on_scenarios :
  CodeExecutor.validate Demo.scenario1 ALLOWED_KEYWORDS = true /\
  CodeExecutor.disallowed_tokens Demo.scenario2 ALLOWED_KEYWORDS
    = ["os"; "os"; "system"] /\
  CodeExecutor.validate Demo.scenario2 ALLOWED_KEYWORDS = false /\
  CodeExecutor.disallowed_tokens Demo.quote_in_comment ALLOWED_KEYWORDS
    = ["os"; "os"; "system"] /\
  CodeExecutor.validate Demo.quote_in_comment ALLOWED_KEYWORDS = false.
Proof. vm_compute. auto. Qed.


(** C2 in the small world: the agent answers scenario 3's text, which
    holds no code. *)
Lemma empty_snippet_witness :
  count is_EExecuteSafeCode
    (evs (@process_query _ (Demo.executor (Demo.says Demo.scenario3)) "plot it"
            (Demo.sys0 (Demo.says Demo.scenario3) ["country"]))) = 0.
Proof.
  refine (proj1 (proj2
    (@empty_snippet_is_an_error _ (Demo.executor (Demo.says Demo.scenario3))
       "plot it" (Demo.sys0 (Demo.says Demo.scenario3) ["country"])
       {[ "input" := "plot it"; "output" := Demo.scenario3 ]} _ _)));
    vm_compute; reflexivity.
Defined.

(** C3 as stated does not hold.  A Ctrl-C during the agent's call leaves
    [process_query] as [KeyboardInterrupt]; and when the agent fails with a
    text the standard output cannot encode, the handler's own print raises
    and that exception leaves [process_query]. *)
Lemma exceptions_leave_process_query :
  res (@process_query _ (Demo.executor Demo.interrupted)
         "plot totals by country"
         (Demo.sys0 Demo.interrupted ["country"; "total"]))
  = Raise (Exn KeyboardInterrupt "") /\
  res (@process_query _ (Demo.executor (Demo.fails_with Demo.cafe))
         "plot totals by country"
         (Demo.sys0 (Demo.fails_with Demo.cafe) ["country"; "total"]))
  = Raise (Exn (OtherException "UnicodeEncodeError")
               "'ascii' codec can't encode character").
Proof. vm_compute. auto. Qed.

(** ** More of todsop03.py

    Properties of the same methods that those above do not state.
    They hold for every implementation of [CodeExecutor]. *)

Section StringFacts.

Lemma append_cons (c : ascii) (a b : string) :
  String c a +:+ b = String c (a +:+ b).
Proof. reflexivity. Qed.

Lemma append_nil_left (b : string) : "" +:+ b = b.
Proof. reflexivity. Qed.

Lemma append_nil_right (a : string) : a +:+ "" = a.
Proof.
  induction a as [|c a IH]; [reflexivity|]. rewrite append_cons, IH. reflexivity.
Qed.

Lemma append_associative (a b c : string) : (a +:+ b) +:+ c = a +:+ (b +:+ c).
Proof.
  induction a as [|x a IH]; [reflexivity|]. rewrite !append_cons, IH. reflexivity.
Qed.

Lemma prefix_append (a b : string) : String.prefix a (a +:+ b) = true.
Proof.
  induction a as [|c a IH]; [destruct b; reflexivity|].
  rewrite append_cons. cbn [String.prefix].
  destruct (Ascii.ascii_dec c c); [exact IH|contradiction].
Qed.

(** [needle in hay] holds wherever [needle] stands in [hay]. *)
Lemma str_in_infix (needle pre post : string) :
  PyStr.str_in needle (pre +:+ needle +:+ post) = true.
Proof.
  induction pre as [|c pre IH].
  - rewrite append_nil_left. destruct (needle +:+ post) eqn:Hhay.
    + destruct needle; [reflexivity|discriminate].
    + cbn [PyStr.str_in]. rewrite <- Hhay, prefix_append. reflexivity.
  - rewrite append_cons. cbn [PyStr.str_in]. rewrite IH. apply orb_true_r.
Qed.

Lemma lower_append (a b : string) :
  PyStr.lower (a +:+ b) = PyStr.lower a +:+ PyStr.lower b.
Proof.
  induction a as [|c a IH]; [reflexivity|].
  rewrite append_cons. cbn [PyStr.lower]. rewrite IH, append_cons. reflexivity.
Qed.

(** Every part of [sep.join(parts)] stands in the result. *)
Lemma join_infix (sep : string) (f : string -> string) (parts : list string)
  (part : string) :
  part ∈ parts ->
  exists pre post, PyStr.join sep (map f parts) = pre +:+ f part +:+ post.
Proof.
  unfold PyStr.join. induction parts as [|x parts IH]; intros Hin.
  - apply elem_of_nil in Hin. contradiction.
  - apply elem_of_cons in Hin as [->|Hin].
    + destruct parts as [|y parts].
      * exists "", "". cbn [map String.concat].
        rewrite append_nil_left, append_nil_right. reflexivity.
      * exists "", (sep +:+ String.concat sep (map f (y :: parts))). reflexivity.
    + destruct (IH Hin) as (pre & post & Heq).
      destruct parts as [|y parts]; [apply elem_of_nil in Hin; contradiction|].
      exists (f x +:+ sep +:+ pre), post.
      change (String.concat sep (map f (x :: y :: parts)))
        with (f x +:+ sep +:+ String.concat sep (map f (y :: parts))).
      rewrite Heq, !append_associative. reflexivity.
Qed.

End StringFacts.

Section Extras.
Context {X : Externals} {CE : CodeExecutorAPI}.
Implicit Types (s : Sys) (q : string) (response : gmap string string).

Lemma missing_none_iff s required :
  missing_columns s required = [] <->
  Forall (fun col => col ∈ df_columns (ext (world s)) (df (self s))) required.
Proof.
  unfold missing_columns, PyStr.mem. induction required as [|col required IH].
  - split; [constructor|reflexivity].
  - cbn [List.filter]. destruct (bool_decide _) eqn:Hmem; cbn [negb].
    + apply bool_decide_eq_true in Hmem. rewrite IH. split.
      * intros Hall. constructor; assumption.
      * intros Hall. apply Forall_cons in Hall as [_ Hall]. exact Hall.
    + apply bool_decide_eq_false in Hmem. split; [discriminate|].
      intros Hall. apply Forall_cons in Hall as [Hcol _]. contradiction.
Qed.

Lemma missing_sublist s required : sublist (missing_columns s required) required.
Proof.
  unfold missing_columns. induction required as [|col required IH]; [constructor|].
  cbn [List.filter]. destruct (negb _); constructor; exact IH.
Qed.

(** X1.  [_validate_columns] returns normally exactly when every required
    column is among the frame's columns.  Otherwise it raises the
    [ValueError] whose text is "Missing required columns: " and the absent
    ones, which come in the order of the required list.  Either way it
    changes nothing. *)
Theorem validate_columns_passes_iff required s :
  let o := _validate_columns required s in
  let columns := df_columns (ext (world s)) (df (self s)) in
  st o = s /\
  (res o = Ok tt <-> Forall (fun col => col ∈ columns) required) /\
  sublist (missing_columns s required) required /\
  match res o with
  | Ok _ => missing_columns s required = []
  | Raise e =>
      missing_columns s required <> [] /\
      e = Exn ValueError
            ("Missing required columns: "
             +:+ PyStr.join ", " (missing_columns s required))
  end.
Proof.
  cbv zeta. rewrite validate_columns_eq. cbn [res st].
  split; [reflexivity|]. rewrite <- missing_none_iff.
  split; [|split; [apply missing_sublist|]].
  - destruct (missing_columns s required); split; congruence.
  - destruct (missing_columns s required); [reflexivity|]. split; congruence.
Qed.

(** X2.  The text of the error [_validate_columns] raises contains the
    name of every required column the frame lacks. *)
Theorem missing_column_is_named required s col e :
  res (_validate_columns required s) = Raise e ->
  col ∈ required ->
  col ∉ df_columns (ext (world s)) (df (self s)) ->
  PyStr.str_in col (exn_str e) = true.
Proof.
  rewrite validate_columns_eq. cbn [res]. intros Hres Hreq Habsent.
  assert (Hmiss : col ∈ missing_columns s required)
    by (apply missing_columns_spec; auto).
  destruct (join_infix ", " (fun c => c) (missing_columns s required) col Hmiss)
    as (pre & post & Hjoin).
  rewrite map_id in Hjoin.
  assert (He : exn_str e = "Missing required columns: "
                           +:+ PyStr.join ", " (missing_columns s required)).
  { destruct (missing_columns s required); [discriminate|].
    injection Hres as <-. reflexivity. }
  rewrite He, Hjoin, <- (append_associative _ pre). apply str_in_infix.
Qed.

(** X3.  The instructions [_create_agent] gives the agent quote every
    column name of the frame. *)
Theorem suffix_names_every_column (columns : list string) (col : string) :
  col ∈ columns ->
  PyStr.str_in ("'" +:+ col +:+ "'") (agent_suffix columns) = true.
Proof.
  intros Hin.
  destruct (join_infix ", " (fun c => "'" +:+ c +:+ "'") columns col Hin)
    as (pre & post & Hjoin).
  replace (agent_suffix columns)
    with (("You are working with a DataFrame. The exact column names are: " +:+ pre)
          +:+ ("'" +:+ col +:+ "'")
          +:+ (post +:+ ". Use df['column name'] syntax for column names with spaces. Generate Matplotlib plots in Python where applicable."))
    by (unfold agent_suffix; rewrite Hjoin, !append_associative; reflexivity).
  apply str_in_infix.
Qed.

Lemma body_checks_first q s :
  PyStr.str_in "sale price" (PyStr.lower q) = true ->
  exists t, evs (process_query_body q s)
            = EValidateColumns (df (self s)) ["sale price"; "country"] :: t.
Proof.
  intros Hcheck. rewrite body_eq. cbv zeta. rewrite Hcheck, validate_columns_eq.
  cbn [res evs]. destruct (missing_columns _ _); cbn [evs]; [|eauto].
  destruct (res (invoke_agent q s)); cbn [evs app]; eauto.
Qed.

(** X6.  The test for "sale price" ignores case: whenever the query
    contains text that lowercases to "sale price", the first thing
    [process_query] does is validate the columns "sale price" and
    "country". *)
Theorem sale_price_check_ignores_case (pre mid post : string) s :
  PyStr.lower mid = "sale price" ->
  exists t,
    evs (process_query (pre +:+ mid +:+ post) s)
    = EValidateColumns (df (self s)) ["sale price"; "country"] :: t.
Proof.
  intros Hmid.
  assert (Hcheck : PyStr.str_in "sale price"
                     (PyStr.lower (pre +:+ mid +:+ post)) = true).
  { rewrite !lower_append, Hmid. apply str_in_infix. }
  destruct (process_query_evs (pre +:+ mid +:+ post) s) as (suffix & -> & _).
  destruct (body_checks_first _ s Hcheck) as (t & ->). cbn [app]. eauto.
Qed.

(** X7.  When the agent's [invoke] raises, nothing is extracted and nothing
    is handed to the executor: after the call and what the agent's tool ran
    during it, [process_query] only has its handler print the error, and
    returns what that print returns; an exception that is no [Exception] it
    lets through with nothing printed.  The outside world is as the failed
    call, and then the print, left it. *)
Theorem agent_failure_ends_the_query q s e :
  PyStr.str_in "sale price" (PyStr.lower q) = false \/
  missing_columns s ["sale price"; "country"] = [] ->
  fst (agent_invoke (data_analysis_agent (self s)) {[ "input" := q ]}
         (ext (world s))) = Raise e ->
  let agent := data_analysis_agent (self s) in
  let checked := if PyStr.str_in "sale price" (PyStr.lower q)
                 then [EValidateColumns (df (self s)) ["sale price"; "country"]]
                 else [] in
  let x := snd (agent_invoke agent {[ "input" := q ]} (ext (world s))) in
  let p := py_print (error_line e) x in
  let o := process_query q s in
  evs o = checked
          ++ EInvoke agent {[ "input" := q ]}
             :: map EToolExec (agent_tool_runs agent {[ "input" := q ]} (ext (world s)))
          ++ (if is_Exception e then [EPrint (error_line e)] else []) /\
  res o = (if is_Exception e then fst p else Raise e) /\
  ext (world (st o)) = (if is_Exception e then snd p else x) /\
  count is_EExecuteSafeCode (evs o) = 0.
Proof.
  intros Hpass Hfail. cbv zeta.
  pose proof (process_query_try q s) as Hq. cbv zeta in Hq.
  rewrite (body_after_check q s Hpass) in Hq. cbv zeta in Hq.
  rewrite invoke_agent_eq in Hq. cbv zeta in Hq. cbn [res st evs] in Hq.
  rewrite Hfail in Hq. cbn [res st evs] in Hq.
  assert (Hnone : forall t : list event,
            count is_EExecuteSafeCode
              ((if PyStr.str_in "sale price" (PyStr.lower q)
                then [EValidateColumns (df (self s)) ["sale price"; "country"]]
                else [])
               ++ EInvoke (data_analysis_agent (self s)) {[ "input" := q ]}
                  :: map EToolExec
                       (agent_tool_runs (data_analysis_agent (self s))
                          {[ "input" := q ]} (ext (world s)))
               ++ (if is_Exception e then [EPrint (error_line e)] else [])) = 0).
  { intros _. rewrite count_app, count_cons, count_app, count_tool
      by (intros; reflexivity).
    destruct (PyStr.str_in _ _), (is_Exception e); reflexivity. }
  specialize (Hnone []).
  destruct (is_Exception e).
  - rewrite Hq. cbn [res st evs with_ext set_ext world ext].
    rewrite <- app_assoc. cbn [app]. auto.
  - rewrite Hq. cbn [res st evs with_ext set_ext world ext].
    rewrite app_nil_r in Hnone |- *. auto.
Qed.

(** X8.  When the agent returns a response whose extracted snippet is not
    empty and the print of "Generated code:" with the snippet goes through,
    [process_query] calls the executor once, on that snippet, with the
    class's allow-list, a new namespace, and the outside world as that print
    left it.  What the executor raises, if it is an [Exception], goes to the
    handler, whose print decides what the query returns; what the last of
    these leaves of the outside world is what the query leaves. *)
Theorem extracted_snippet_is_executed q s response x x1 :
  PyStr.str_in "sale price" (PyStr.lower q) = false \/
  missing_columns s ["sale price"; "country"] = [] ->
  agent_invoke (data_analysis_agent (self s)) {[ "input" := q ]} (ext (world s))
    = (Ok response, x) ->
  PyStr.is_empty (extract_code_snippet (response_output response)) = false ->
  py_print ("Generated code:" +:+ PyStr.nl
            +:+ extract_code_snippet (response_output response)) x
    = (Ok tt, x1) ->
  let agent := data_analysis_agent (self s) in
  let checked := if PyStr.str_in "sale price" (PyStr.lower q)
                 then [EValidateColumns (df (self s)) ["sale price"; "country"]]
                 else [] in
  let code := extract_code_snippet (response_output response) in
  let allowed := class_ALLOWED_KEYWORDS (world s) in
  let r := execute_safe_code code allowed (exec_namespace s) x1 in
  let o := process_query q s in
  evs o = checked
          ++ EInvoke agent {[ "input" := q ]}
             :: map EToolExec (agent_tool_runs agent {[ "input" := q ]} (ext (world s)))
          ++ [EExtract (response_output response);
              EPrint ("Generated code:" +:+ PyStr.nl +:+ code);
              EExecuteSafeCode code allowed (exec_namespace s)]
          ++ map (fun cn => EExec (fst cn) (snd cn)) (exec_ran r)
          ++ match exec_res r with
             | Raise e => if is_Exception e then [EPrint (error_line e)] else []
             | Ok _ => []
             end /\
  res o = match exec_res r with
          | Raise e =>
              if is_Exception e
              then fst (py_print (error_line e) (exec_ext r))
              else Raise e
          | Ok u => Ok u
          end /\
  ext (world (st o)) = match exec_res r with
                       | Raise e =>
                           if is_Exception e
                           then snd (py_print (error_line e) (exec_ext r))
                           else exec_ext r
                       | Ok _ => exec_ext r
                       end.
Proof.
  intros Hpass Hreply Hcode Hprint. cbv zeta.
  pose proof (process_query_try q s) as Hq. cbv zeta in Hq.
  rewrite (body_after_check q s Hpass) in Hq. cbv zeta in Hq.
  rewrite invoke_agent_eq in Hq. cbv zeta in Hq. cbn [res st evs] in Hq.
  rewrite Hreply in Hq. cbn [fst snd res] in Hq.
  rewrite (extract_and_execute_run response _ Hcode) in Hq. cbv zeta in Hq.
  cbn [with_ext set_ext world ext] in Hq. rewrite Hprint in Hq.
  cbn [fst snd] in Hq. rewrite execute_step_eq in Hq. cbv zeta in Hq.
  cbn [res st evs self world ext allocs class_ALLOWED_KEYWORDS environ
       with_ext set_ext] in Hq.
  rewrite !exec_namespace_with_ext in Hq.
  destruct (exec_res _) as [u|e].
  - rewrite Hq. cbn [res st evs world ext]. rewrite app_nil_r.
    split; [|auto]. rewrite <- ?app_assoc. cbn [app]. reflexivity.
  - destruct (is_Exception e).
    + rewrite Hq. cbn [res st evs with_ext set_ext world ext].
      split; [|auto]. rewrite <- ?app_assoc. cbn [app].
      rewrite <- ?app_assoc. reflexivity.
    + rewrite Hq. cbn [res st evs world ext]. rewrite app_nil_r.
      split; [|auto]. rewrite <- ?app_assoc. cbn [app]. reflexivity.
Qed.

(** X11.  The print of line 79 stands between the extractor and the
    executor: when it raises, [_extract_and_execute_code] raises the same
    exception, builds no namespace and does not call the executor. *)
Theorem failed_print_skips_the_executor response s e :
  PyStr.is_empty (extract_code_snippet (response_output response)) = false ->
  fst (py_print ("Generated code:" +:+ PyStr.nl
                 +:+ extract_code_snippet (response_output response))
         (ext (world s))) = Raise e ->
  let line := "Generated code:" +:+ PyStr.nl
              +:+ extract_code_snippet (response_output response) in
  let o := _extract_and_execute_code response s in
  o = MkOut (Raise e) (with_ext s (snd (py_print line (ext (world s)))))
            [EExtract (response_output response); EPrint line] /\
  count is_EExecuteSafeCode (evs o) = 0 /\
  allocs (world (st o)) = allocs (world s).
Proof.
  intros Hcode Hprint. cbv zeta.
  rewrite (extract_and_execute_run response s Hcode). cbv zeta.
  rewrite Hprint. auto.
Qed.

(** X9.  In any query, whatever text is handed to the extractor is the
    output of the agent's response to that query, and whatever snippet is
    handed to the executor is what the extractor made of it; that snippet is
    never the empty string. *)
Theorem executor_gets_the_extracted_snippet q s :
  let reply := agent_invoke (data_analysis_agent (self s)) {[ "input" := q ]}
                 (ext (world s)) in
  Forall (fun e =>
            match e with
            | EExtract text =>
                exists response,
                  fst reply = Ok response /\ text = response_output response
            | EExecuteSafeCode code _ _ =>
                code <> "" /\
                exists response,
                  fst reply = Ok response /\
                  code = extract_code_snippet (response_output response)
            | _ => True
            end) (evs (process_query q s)).
Proof.
  cbv zeta. destruct (process_query_evs q s) as (suffix & -> & Hsuffix).
  apply Forall_app. split.
  2:{ destruct Hsuffix as [-> | [line ->]]; repeat constructor. }
  rewrite body_eq. cbv zeta.
  assert (Hpre : Forall (fun e => match e with
                                  | EExtract _ | EExecuteSafeCode _ _ _ => False
                                  | _ => True
                                  end)
                   (evs (if PyStr.str_in "sale price" (PyStr.lower q)
                         then _validate_columns ["sale price"; "country"] s
                         else ret tt s))).
  { destruct (PyStr.str_in _ _); [rewrite validate_columns_eq|]; repeat constructor. }
  assert (Hpre' : Forall (fun e =>
            match e with
            | EExtract text =>
                exists response,
                  fst (agent_invoke (data_analysis_agent (self s))
                         {[ "input" := q ]} (ext (world s))) = Ok response /\
                  text = response_output response
            | EExecuteSafeCode code _ _ =>
                code <> "" /\
                exists response,
                  fst (agent_invoke (data_analysis_agent (self s))
                         {[ "input" := q ]} (ext (world s))) = Ok response /\
                  code = extract_code_snippet (response_output response)
            | _ => True
            end)
                   (evs (if PyStr.str_in "sale price" (PyStr.lower q)
                         then _validate_columns ["sale price"; "country"] s
                         else ret tt s))).
  { eapply Forall_impl; [exact Hpre|]. intros [] He; try exact I; contradiction. }
  destruct (res (if PyStr.str_in _ _ then _ else _)); [|exact Hpre'].
  rewrite invoke_agent_eq. cbv zeta. cbn [res st evs].
  destruct (fst (agent_invoke _ _ _)) as [response|e] eqn:Hreply; cbn [evs].
  2:{ apply Forall_app. split; [exact Hpre'|].
      constructor; [exact I|]. apply Forall_map_tool. intros; exact I. }
  apply Forall_app. split; [exact Hpre'|].
  apply Forall_app. split.
  { constructor; [exact I|]. apply Forall_map_tool. intros; exact I. }
  destruct (PyStr.is_empty (extract_code_snippet (response_output response)))
    eqn:Hcode.
  - rewrite extract_and_execute_empty by assumption. cbn [evs].
    repeat constructor. eauto.
  - rewrite extract_and_execute_run by assumption. cbv zeta.
    destruct (fst (py_print _ _)); cbn [evs].
    + rewrite execute_step_eq. cbv zeta. cbn [evs].
      constructor; [eauto|]. constructor; [exact I|]. constructor.
      * split; [|eauto]. intros Hempty. rewrite Hempty in Hcode. discriminate.
      * apply Forall_map_exec. intros; exact I.
    + constructor; [eauto|]. repeat constructor.
Qed.

(** A session of one query that mentions "sale price". *)
Lemma session_checks_first q (w : World) :
  PyStr.str_in "sale price" (PyStr.lower q) = true ->
  match res (__init__ w) with
  | Raise e => session [q] w = MkOut (Raise e) (st (__init__ w)) []
  | Ok agent =>
      let echo := "Processing query: " +:+ q in
      match fst (py_print echo (ext (st (__init__ w)))) with
      | Raise e =>
          res (session [q] w) = Raise e /\ evs (session [q] w) = [EPrint echo]
      | Ok _ =>
          exists t,
            evs (session [q] w) =
            EPrint echo :: EValidateColumns (df agent) ["sale price"; "country"] :: t
      end
  end.
Proof.
  intros Hcheck. unfold session.
  destruct (init_quiet w) as (_ & _ & _ & Hevs).
  destruct (res (__init__ w)) as [agent|e]; [|rewrite Hevs; reflexivity].
  rewrite Hevs. cbv zeta. cbn [res evs app run_all]. rewrite bind_unfold.
  unfold run. rewrite bind_unfold, print_eq. cbn [res st evs world ext].
  destruct (fst (py_print _ _)) as [u|e]; cbn [res evs]; [|auto].
  destruct (process_query_evs q
              (with_ext (MkSys agent (st (__init__ w)))
                 (snd (py_print ("Processing query: " +:+ q)
                         (ext (st (__init__ w)))))))
    as (suffix & Hq & _).
  destruct (body_checks_first q
              (with_ext (MkSys agent (st (__init__ w)))
                 (snd (py_print ("Processing query: " +:+ q)
                         (ext (st (__init__ w)))))) Hcheck)
    as (t & Hb).
  rewrite Hb in Hq. cbn [with_ext self df] in Hq.
  destruct (res (process_query q _)); cbn [evs]; rewrite Hq; cbn [app]; eauto.
Qed.

(** X10.  The script's entry point.  If constructing the agent fails, the
    script ends with that exception, nothing printed.  Otherwise it echoes
    the built-in query; if that print raises the script ends there, and if
    not, the query mentioning "sale price", it checks the frame for
    "sale price" and "country" before anything else. *)
Theorem main_checks_columns_first (env : gmap string string) (x : Ext) :
  let w := class_PlotAgent env x in
  let echo :=
    "Processing query: plot bar chart of sale price by country with unique color" in
  match res (__init__ w) with
  | Raise e => main w = MkOut (Raise e) (st (__init__ w)) []
  | Ok agent =>
      match fst (py_print echo (ext (st (__init__ w)))) with
      | Raise e => res (main w) = Raise e /\ evs (main w) = [EPrint echo]
      | Ok _ =>
          exists t,
            evs (main w) =
            EPrint echo :: EValidateColumns (df agent) ["sale price"; "country"] :: t
      end
  end.
Proof.
  cbv zeta. unfold main.
  apply (session_checks_first
           "plot bar chart of sale price by country with unique color").
  vm_compute. reflexivity.
Qed.

End Extras.

(** ** The properties above at work in the small world *)

(** X2: the frame has "country" only, so "sale price" is named. *)
Lemma missing_column_is_named_witness :
  PyStr.str_in "sale price" "Missing required columns: sale price" = true.
Proof.
  refine (@missing_column_is_named (Demo.externals (Demo.says Demo.scenario3))
            ["sale price"; "country"]
            (Demo.sys0 (Demo.says Demo.scenario3) ["country"])
            "sale price"
            (Exn ValueError "Missing required columns: sale price") _ _ _).
  - vm_compute. reflexivity.
  - apply (bool_decide_unpack _). vm_compute. exact I.
  - apply (bool_decide_unpack _). vm_compute. exact I.
Defined.

(** X3: a frame with the columns "country" and "sale price". *)
Lemma suffix_names_every_column_witness :
  PyStr.str_in "'sale price'" (agent_suffix ["country"; "sale price"]) = true.
Proof.
  refine (suffix_names_every_column ["country"; "sale price"] "sale price" _).
  apply (bool_decide_unpack _). vm_compute. exact I.
Defined.

(** X6: a query that writes the words in capitals. *)
Lemma sale_price_check_ignores_case_witness :
  exists t,
    evs (@process_query _ (Demo.executor (Demo.says Demo.scenario1))
           ("Plot " +:+ "SALE Price" +:+ " by country")
           (Demo.sys0 (Demo.says Demo.scenario1) ["country"]))
    = EValidateColumns (df (Demo.agent0 (Demo.says Demo.scenario1) ["country"]))
        ["sale price"; "country"] :: t.
Proof.
  refine (@sale_price_check_ignores_case _
            (Demo.executor (Demo.says Demo.scenario1))
            "Plot " "SALE Price" " by country"
            (Demo.sys0 (Demo.says Demo.scenario1) ["country"]) _).
  vm_compute. reflexivity.
Defined.

(** X7: the agent fails with a text the standard output cannot encode, so
    the handler's print is what the query ends with. *)
Lemma agent_failure_ends_the_query_witness :
  res (@process_query _ (Demo.executor (Demo.fails_with Demo.cafe)) "plot totals"
         (Demo.sys0 (Demo.fails_with Demo.cafe) ["country"]))
  = Raise (Exn (OtherException "UnicodeEncodeError")
               "'ascii' codec can't encode character").
Proof.
  refine (proj1 (proj2
            (@agent_failure_ends_the_query _
               (Demo.executor (Demo.fails_with Demo.cafe)) "plot totals"
               (Demo.sys0 (Demo.fails_with Demo.cafe) ["country"])
               (Exn ValueError Demo.cafe) _ _))).
  - left. vm_compute. reflexivity.
  - vm_compute. reflexivity.
Defined.

(** X8: the agent answers with the snippet of scenario 1. *)
Lemma extracted_snippet_is_executed_witness :
  res (@process_query _ (Demo.executor (Demo.says Demo.scenario1)) "plot it"
         (Demo.sys0 (Demo.says Demo.scenario1) ["country"]))
  = Ok tt.
Proof.
  refine (eq_trans
            (proj1 (proj2
               (@extracted_snippet_is_executed _
                  (Demo.executor (Demo.says Demo.scenario1)) "plot it"
                  (Demo.sys0 (Demo.says Demo.scenario1) ["country"])
                  {[ "input" := "plot it"; "output" := Demo.scenario1 ]}
                  ["country"] ["country"] _ _ _ _))) _).
  - left. vm_compute. reflexivity.
  - vm_compute. reflexivity.
  - vm_compute. reflexivity.
  - vm_compute. reflexivity.
  - vm_compute. reflexivity.
Defined.

(** X11: the agent answers with a plot whose title the standard output
    cannot encode. *)
Lemma failed_print_skips_the_executor_witness :
  count is_EExecuteSafeCode
    (evs (@_extract_and_execute_code _
            (Demo.executor (Demo.says_to_ascii Demo.accented_plot))
            {[ "input" := "plot it"; "output" := Demo.accented_plot ]}
            (Demo.sys0 (Demo.says_to_ascii Demo.accented_plot) ["country"])))
  = 0.
Proof.
  refine (proj1 (proj2
            (@failed_print_skips_the_executor _
               (Demo.executor (Demo.says_to_ascii Demo.accented_plot))
               {[ "input" := "plot it"; "output" := Demo.accented_plot ]}
               (Demo.sys0 (Demo.says_to_ascii Demo.accented_plot) ["country"])
               (Exn (OtherException "UnicodeEncodeError")
                    "'ascii' codec can't encode character") _ _))).
  - vm_compute. reflexivity.
  - vm_compute. reflexivity.
Defined.
